(** * ai_paper_writer: the ranking and selection core

    A shallow embedding of [src/ai_paper_writer.py]: the recency filter
    ([is_recent_paper]), the trending scorer ([calculate_trending_score]),
    the candidate-set reduction and enrichment of [fetch_trending], the
    external validator ([validate_external_trending]) and the selector
    ([pick_best]).

    Paper records are Python dicts decoded from JSON, so they are modelled
    as finite maps from keys to dynamically typed values; code that can
    raise lives in an error monad; [print] appends to an output trace;
    [datetime.now()] is a parameter. Text is modelled over ASCII; JSON
    numbers are modelled as integers.

    The file has four parts: the embedding of the code, the definitions
    the statements are written with, the lemmas, and the claims. *)

From Stdlib Require Import ZArith String Ascii List Lia Permutation Sorted.
From stdpp Require Import gmap strings list fin_maps.

Set Warnings "-register-all".
Local Open Scope string_scope.
Local Open Scope Z_scope.

(** * Part I: the embedding *)

(** ** Python values, exceptions, results *)

Inductive pyval : Type :=
  | VNone
  | VBool (b : bool)
  | VInt (n : Z)
  | VStr (s : string)
  | VList (l : list pyval)
  | VDict (d : gmap string pyval).

Inductive exn : Type :=
  | ValueError
  | TypeError
  | AttributeError
  | KeyError
  | IndexError.

Inductive result (A : Type) : Type :=
  | Ok (a : A)
  | Raise (e : exn).
Arguments Ok {A} a.
Arguments Raise {A} e.

#[global] Instance result_ret : MRet result := @Ok.
#[global] Instance result_bind : MBind result := λ A B f r,
  match r with
  | Ok a => f a
  | Raise e => Raise e
  end.

(** [try: r except (ValueError, TypeError): h] *)
Definition except_value_type {A} (r : result A) (h : result A) : result A :=
  match r with
  | Raise ValueError | Raise TypeError => h
  | _ => r
  end.

(** Truth value of a Python object, as tested by [if], [not] and [or]. *)
Definition truthy (v : pyval) : bool :=
  match v with
  | VNone => false
  | VBool b => b
  | VInt n => negb (n =? 0)
  | VStr s => negb (String.eqb s "")
  | VList l => match l with [] => false | _ => true end
  | VDict d => negb (bool_decide (d = ∅))
  end.

(** [a or b] *)
Definition py_or (a b : pyval) : pyval := if truthy a then a else b.

(** [d.get(k)] and [d.get(k, dflt)] *)
Definition dict_get (d : gmap string pyval) (k : string) : pyval :=
  default VNone (d !! k).
Definition dict_get_default (d : gmap string pyval) (k : string) (dflt : pyval) : pyval :=
  default dflt (d !! k).

(** [d[k]] *)
Definition dict_item (d : gmap string pyval) (k : string) : result pyval :=
  match d !! k with
  | Some v => Ok v
  | None => Raise KeyError
  end.

(** [v.get(k, dflt)] on an arbitrary object: only dicts have [get]. *)
Definition py_get (v : pyval) (k : string) (dflt : pyval) : result pyval :=
  match v with
  | VDict d => Ok (dict_get_default d k dflt)
  | _ => Raise AttributeError
  end.

(** ** Strings *)

(** [needle in hay] for two strings *)
Fixpoint str_in (needle hay : string) : bool :=
  String.prefix needle hay ||
  match hay with
  | EmptyString => false
  | String _ hay' => str_in needle hay'
  end.

Definition is_lower (c : ascii) : bool :=
  let n := nat_of_ascii c in (97 <=? n)%nat && (n <=? 122)%nat.

Definition upper_char (c : ascii) : ascii :=
  if is_lower c then ascii_of_nat (nat_of_ascii c - 32) else c.

(** [s.upper()] *)
Fixpoint str_upper (s : string) : string :=
  match s with
  | EmptyString => EmptyString
  | String c s' => String (upper_char c) (str_upper s')
  end.

(** The characters [str.strip()] removes: TAB..CR, FS..US and space. *)
Definition is_space (c : ascii) : bool :=
  let n := nat_of_ascii c in
  ((9 <=? n)%nat && (n <=? 13)%nat) || ((28 <=? n)%nat && (n <=? 32)%nat).

Fixpoint str_lstrip (s : string) : string :=
  match s with
  | EmptyString => EmptyString
  | String c s' => if is_space c then str_lstrip s' else s
  end.

Fixpoint str_rstrip (s : string) : string :=
  match s with
  | EmptyString => EmptyString
  | String c s' =>
      match str_rstrip s' with
      | EmptyString => if is_space c then EmptyString else String c EmptyString
      | r => String c r
      end
  end.

(** [s.strip()] *)
Definition str_strip (s : string) : string := str_lstrip (str_rstrip s).

(** [s.replace(c, new)] for a one-character pattern [c] *)
Fixpoint str_replace_char (c : ascii) (new s : string) : string :=
  match s with
  | EmptyString => EmptyString
  | String a s' =>
      if Ascii.eqb a c then String.append new (str_replace_char c new s')
      else String a (str_replace_char c new s')
  end.

(** [s[n:]] *)
Fixpoint str_drop (n : nat) (s : string) : string :=
  match n, s with
  | O, _ => s
  | S n', String _ s' => str_drop n' s'
  | S _, EmptyString => EmptyString
  end.

(** [s.find(c)] for a one-character pattern: [None] stands for -1. *)
Fixpoint str_find (c : ascii) (s : string) : option nat :=
  match s with
  | EmptyString => None
  | String a s' => if Ascii.eqb a c then Some O else S <$> str_find c s'
  end.

(** Methods and operators on dynamically typed values. *)

(** [v.upper()] *)
Definition py_upper (v : pyval) : result string :=
  match v with
  | VStr s => Ok (str_upper s)
  | _ => Raise AttributeError
  end.

(** [v.strip()] *)
Definition py_strip (v : pyval) : result string :=
  match v with
  | VStr s => Ok (str_strip s)
  | _ => Raise AttributeError
  end.

(** [v.replace(c, new)] *)
Definition py_replace (v : pyval) (c : ascii) (new : string) : result string :=
  match v with
  | VStr s => Ok (str_replace_char c new s)
  | _ => Raise AttributeError
  end.

Definition is_str (needle : string) (v : pyval) : bool :=
  match v with
  | VStr s => String.eqb s needle
  | _ => false
  end.

(** ["needle" in v]: substring test on a string, membership on a list,
    key membership on a dict; other objects are not iterable. *)
Definition py_contains (needle : string) (v : pyval) : result bool :=
  match v with
  | VStr s => Ok (str_in needle s)
  | VList l => Ok (existsb (is_str needle) l)
  | VDict d => Ok (bool_decide (is_Some (d !! needle)))
  | _ => Raise TypeError
  end.

(** [a * 10] *)
Definition py_mul10 (a : pyval) : result pyval :=
  match a with
  | VInt n => Ok (VInt (n * 10))
  | VBool b => Ok (VInt (if b then 10 else 0))
  | VStr s => Ok (VStr (String.concat "" (List.repeat s 10)))
  | VList l => Ok (VList (List.concat (List.repeat l 10)))
  | _ => Raise TypeError
  end.

Definition as_int (a : pyval) : option Z :=
  match a with
  | VInt n => Some n
  | VBool b => Some (if b then 1 else 0)
  | _ => None
  end.

(** [a + b] where at least one operand is a number: any other pairing
    that reaches the code below is a [TypeError]. *)
Definition py_add_int (a b : pyval) : result Z :=
  match as_int a, as_int b with
  | Some x, Some y => Ok (x + y)
  | _, _ => Raise TypeError
  end.

(** [a // 10] *)
Definition py_floordiv10 (a : pyval) : result Z :=
  match as_int a with
  | Some x => Ok (x / 10)
  | None => Raise TypeError
  end.

(** ** Dates and times

    The part of Python's [datetime] module the program calls: the
    proleptic Gregorian day count behind [toordinal], the field checks of
    the [datetime] constructor, subtraction of two datetimes,
    [datetime.strptime(s, "%Y-%m-%d")] and [datetime.fromisoformat] for
    the format [YYYY-MM-DD[*HH[:MM[:SS[.fff[fff]]]][+HH:MM[:SS[.ffffff]]]]]. *)

Record datetime : Type := mkDatetime {
  year : Z;
  month : Z;
  day : Z;
  hour : Z;
  minute : Z;
  second : Z;
  microsecond : Z;
  tzinfo : option Z  (* [None]: naive; [Some off]: aware, UTC offset in microseconds *)
}.

Definition is_leap (y : Z) : bool :=
  (y mod 4 =? 0) && (negb (y mod 100 =? 0) || (y mod 400 =? 0)).

Definition days_before_year (y : Z) : Z :=
  let y' := y - 1 in y' * 365 + y' / 4 - y' / 100 + y' / 400.

Definition days_in_month (y m : Z) : Z :=
  if (m =? 2) && is_leap y then 29
  else nth (Z.to_nat m) [0; 31; 28; 31; 30; 31; 30; 31; 31; 30; 31; 30; 31] 0.

Definition days_before_month (y m : Z) : Z :=
  nth (Z.to_nat m) [0; 0; 31; 59; 90; 120; 151; 181; 212; 243; 273; 304; 334] 0
  + (if (2 <? m) && is_leap y then 1 else 0).

Definition ymd2ord (y m d : Z) : Z :=
  days_before_year y + days_before_month y m + d.

Definition toordinal (dt : datetime) : Z := ymd2ord (year dt) (month dt) (day dt).

Definition check_date_fields (y m d : Z) : bool :=
  (1 <=? y) && (y <=? 9999) && (1 <=? m) && (m <=? 12) &&
  (1 <=? d) && (d <=? days_in_month y m).

Definition check_time_fields (hh mm ss us : Z) : bool :=
  (0 <=? hh) && (hh <=? 23) && (0 <=? mm) && (mm <=? 59) &&
  (0 <=? ss) && (ss <=? 59) && (0 <=? us) && (us <=? 999999).

(** [datetime(y, m, d, hh, mm, ss, us, tz)] *)
Definition new_datetime (y m d hh mm ss us : Z) (tz : option Z) : result datetime :=
  if check_date_fields y m d && check_time_fields hh mm ss us
  then Ok (mkDatetime y m d hh mm ss us tz)
  else Raise ValueError.

Definition us_per_day : Z := 86400 * 1000000.

(** [(a - b).days]: the difference is a [timedelta] normalised so that
    its seconds and microseconds are non-negative; mixing a naive and an
    aware datetime is a [TypeError]. *)
Definition sub_days (a b : datetime) : result Z :=
  let secs (x : datetime) := second x + minute x * 60 + hour x * 3600 in
  let base :=
    (toordinal a - toordinal b) * us_per_day
    + (secs a - secs b) * 1000000 + (microsecond a - microsecond b) in
  match tzinfo a, tzinfo b with
  | None, None => Ok (base / us_per_day)
  | Some oa, Some ob => Ok ((base + ob - oa) / us_per_day)
  | _, _ => Raise TypeError
  end.

Definition digit_of (c : ascii) : option Z :=
  let n := Z.of_nat (nat_of_ascii c) in
  if (48 <=? n) && (n <=? 57) then Some (n - 48) else None.

Fixpoint digits_value (acc : Z) (s : string) : option Z :=
  match s with
  | EmptyString => Some acc
  | String c s' =>
      match digit_of c with
      | Some d => digits_value (acc * 10 + d) s'
      | None => None
      end
  end.

(** Exactly [n] decimal digits. *)
Definition parse_digits (n : nat) (s : string) : result Z :=
  if Nat.eqb (String.length s) n then
    match digits_value 0 s with
    | Some v => Ok v
    | None => Raise ValueError
    end
  else Raise ValueError.

Definition expect_char (c : ascii) (s : string) : result string :=
  match s with
  | String a s' => if Ascii.eqb a c then Ok s' else Raise ValueError
  | EmptyString => Raise ValueError
  end.

(** The month and day directives of [strptime]: one or two digits, the
    two-digit form possibly zero-padded; the day also accepts a space
    followed by one digit. *)
Definition strptime_month (s : string) : result Z :=
  match s with
  | String a EmptyString =>
      match digit_of a with
      | Some d => if 1 <=? d then Ok d else Raise ValueError
      | None => Raise ValueError
      end
  | String a (String b EmptyString) =>
      match digit_of a, digit_of b with
      | Some 1, Some d => if d <=? 2 then Ok (10 + d) else Raise ValueError
      | Some 0, Some d => if 1 <=? d then Ok d else Raise ValueError
      | _, _ => Raise ValueError
      end
  | _ => Raise ValueError
  end.

Definition strptime_day (s : string) : result Z :=
  match s with
  | String a EmptyString =>
      match digit_of a with
      | Some d => if 1 <=? d then Ok d else Raise ValueError
      | None => Raise ValueError
      end
  | String a (String b EmptyString) =>
      match digit_of a, digit_of b with
      | Some 3, Some d => if d <=? 1 then Ok (30 + d) else Raise ValueError
      | Some 1, Some d => Ok (10 + d)
      | Some 2, Some d => Ok (20 + d)
      | Some 0, Some d => if 1 <=? d then Ok d else Raise ValueError
      | None, Some d =>
          if Ascii.eqb a " " && (1 <=? d) then Ok d else Raise ValueError
      | _, _ => Raise ValueError
      end
  | _ => Raise ValueError
  end.

(** [datetime.strptime(s, "%Y-%m-%d")]: four digits, a dash, a month, a
    dash, a day, and nothing else; then the date must exist. *)
Definition strptime_ymd (s : string) : result datetime :=
  y ← parse_digits 4 (String.substring 0 4 s);
  rest ← expect_char "-" (str_drop 4 s);
  match str_find "-" rest with
  | None => Raise ValueError
  | Some i =>
      m ← strptime_month (String.substring 0 i rest);
      d ← strptime_day (str_drop (S i) rest);
      new_datetime y m d 0 0 0 0 None
  end.

(** [_parse_isoformat_date], on the first ten characters *)
Definition parse_isoformat_date (dtstr : string) : result (Z * Z * Z) :=
  y ← parse_digits 4 (String.substring 0 4 dtstr);
  _ ← expect_char "-" (String.substring 4 1 dtstr);
  m ← parse_digits 2 (String.substring 5 2 dtstr);
  _ ← expect_char "-" (String.substring 7 1 dtstr);
  d ← parse_digits 2 (String.substring 8 2 dtstr);
  Ok (y, m, d).

(** [_parse_hh_mm_ss_ff]: [HH[:MM[:SS[.fff[fff]]]]] *)
Definition parse_hh_mm_ss_ff (tstr : string) : result (Z * Z * Z * Z) :=
  hh ← parse_digits 2 (String.substring 0 2 tstr);
  match str_drop 2 tstr with
  | EmptyString => Ok (hh, 0, 0, 0)
  | rest1 =>
      r1 ← expect_char ":" rest1;
      mm ← parse_digits 2 (String.substring 0 2 r1);
      match str_drop 2 r1 with
      | EmptyString => Ok (hh, mm, 0, 0)
      | rest2 =>
          r2 ← expect_char ":" rest2;
          ss ← parse_digits 2 (String.substring 0 2 r2);
          match str_drop 2 r2 with
          | EmptyString => Ok (hh, mm, ss, 0)
          | rest3 =>
              frac ← expect_char "." rest3;
              match String.length frac with
              | 3%nat => us ← parse_digits 3 frac; Ok (hh, mm, ss, us * 1000)
              | 6%nat => us ← parse_digits 6 frac; Ok (hh, mm, ss, us)
              | _ => Raise ValueError
              end
          end
      end
  end.

(** [timezone(offset)]: the offset lies strictly within a day. *)
Definition new_timezone (off : Z) : result Z :=
  if (- us_per_day <? off) && (off <? us_per_day) then Ok off else Raise ValueError.

(** [_parse_isoformat_time]: the time, then an optional UTC offset
    introduced by the first ["-"] or, when there is none, the first ["+"]. *)
Definition parse_isoformat_time (tstr : string) : result (Z * Z * Z * Z * option Z) :=
  if (String.length tstr <? 2)%nat then Raise ValueError else
  let tz_sign :=
    match str_find "-" tstr with
    | Some i => Some (i, -1)
    | None => match str_find "+" tstr with Some i => Some (i, 1) | None => None end
    end in
  match tz_sign with
  | None =>
      '(hh, mm, ss, us) ← parse_hh_mm_ss_ff tstr;
      Ok (hh, mm, ss, us, None)
  | Some (i, sign) =>
      '(hh, mm, ss, us) ← parse_hh_mm_ss_ff (String.substring 0 i tstr);
      let tzstr := str_drop (S i) tstr in
      if negb (existsb (Nat.eqb (String.length tzstr)) [5; 8; 15]%nat)
      then Raise ValueError else
      '(th, tm, ts, tu) ← parse_hh_mm_ss_ff tzstr;
      tz ← new_timezone (sign * (((th * 3600 + tm * 60 + ts) * 1000000) + tu));
      Ok (hh, mm, ss, us, Some tz)
  end.

(** [datetime.fromisoformat(date_string)] *)
Definition fromisoformat (date_string : string) : result datetime :=
  '(y, m, d) ← parse_isoformat_date (String.substring 0 10 date_string);
  '(hh, mm, ss, us, tz) ←
    match str_drop 11 date_string with
    | EmptyString => Ok (0, 0, 0, 0, None)
    | tstr => parse_isoformat_time tstr
    end;
  new_datetime y m d hh mm ss us tz.

(** The two library entry points applied to a dynamically typed
    argument: anything but a string is a [TypeError]. *)
Definition py_strptime_ymd (v : pyval) : result datetime :=
  match v with
  | VStr s => strptime_ymd s
  | _ => Raise TypeError
  end.

(** ** The program *)

Definition CURRENT_YEAR : Z := 2025.

(** The lines shared by the recency filter and the scorer: choose the
    parser by whether ["T"] occurs in the value, after rewriting a ["Z"]
    suffix as an explicit offset. *)
Definition parse_published (published : pyval) : result datetime :=
  has_T ← py_contains "T" published;
  if has_T : bool then
    s ← py_replace published "Z" "+00:00";
    fromisoformat s
  else py_strptime_ymd published.

Definition is_recent_paper (paper : gmap string pyval) : result bool :=
  let published_date := dict_get paper "published" in
  if negb (truthy published_date) then Ok false
  else
    except_value_type
      (paper_date ← parse_published published_date;
       Ok (CURRENT_YEAR <=? year paper_date))
      (Ok false).

(** Component 1 of the scorer: [(paper.get("github_stars", 0) or 0) * 10]. *)
Definition github_component (paper : gmap string pyval) : result pyval :=
  let github_stars := py_or (dict_get_default paper "github_stars" (VInt 0)) (VInt 0) in
  py_mul10 github_stars.

(** Component 2 of the scorer; [now] is the value of [datetime.now()],
    a naive datetime. *)
Definition recency_component (now : datetime) (paper : gmap string pyval) : result Z :=
  if truthy (dict_get paper "published") then
    except_value_type
      (published ← dict_item paper "published";
       paper_date ← parse_published published;
       days_old ← sub_days now paper_date;
       Ok (if days_old <=? 7 then 50
           else if days_old <=? 30 then 25
           else if days_old <=? 90 then 10
           else 0))
      (Ok 0)
  else Ok 0.

Definition prestigious_conferences : list string :=
  ["ICLR"; "ICML"; "NeurIPS"; "AAAI"; "IJCAI"; "ACL"; "EMNLP"].

(** Component 3 of the scorer. *)
Definition conference_component (paper : gmap string pyval) : result Z :=
  let conference := py_or (dict_get paper "conference") (VStr "") in
  if truthy conference then
    up ← py_upper conference;
    Ok (if existsb (λ conf, str_in conf up) prestigious_conferences then 20 else 0)
  else Ok 0.

Definition calculate_trending_score (now : datetime) (paper : gmap string pyval)
  : result (gmap string pyval) :=
  github ← github_component paper;
  recency_bonus ← recency_component now paper;
  conference_bonus ← conference_component paper;
  partial ← py_add_int github (VInt recency_bonus);
  total ← py_add_int (VInt partial) (VInt conference_bonus);
  Ok (<["total_score" := VInt total]>
      (<["conference_bonus" := VInt conference_bonus]>
       (<["recency_bonus" := VInt recency_bonus]>
        (<["github_stars" := github]> ∅)))).

(** *** Output and the pipeline stages *)

(** What the program prints, one constructor per [print] call. *)
Inductive event : Type :=
  | MsgFetching
  | MsgFound (n : nat)
  | MsgFiltered (n : nat)
  | MsgFallback
  | MsgAnalyzing
  | MsgTopCandidates
  | MsgCandidate (i : nat) (title_prefix : pyval)
  | MsgTrendingScore (total : pyval) (stars : Z) (recency conference : pyval)
  | MsgValidationScore (score : pyval)
  | MsgTotalScore (total : Z)
  | MsgBlank.

(** A computation that prints and may raise: what was printed, and the
    outcome. *)
Definition io (A : Type) : Type := (list event * result A)%type.

#[global] Instance io_ret : MRet io := λ A a, ([], Ok a).
#[global] Instance io_bind : MBind io := λ A B f m,
  match m with
  | (out, Ok a) => let '(out', r) := f a in (app out out', r)
  | (out, Raise e) => (out, Raise e)
  end.

Definition print (e : event) : io unit := ([e], Ok tt).
Definition lift {A} (r : result A) : io A := ([], r).

(** [[paper for paper in all_papers if is_recent_paper(paper)]] *)
Fixpoint recent_only (all_papers : list (gmap string pyval))
  : result (list (gmap string pyval)) :=
  match all_papers with
  | [] => Ok []
  | paper :: rest =>
      b ← is_recent_paper paper;
      rest' ← recent_only rest;
      Ok (if b : bool then paper :: rest' else rest')
  end.

(** The candidate-set reduction of [fetch_trending]: the filter, its
    report, and the fallback to the first ten records. *)
Definition reduce_candidates (all_papers : list (gmap string pyval))
  : io (list (gmap string pyval)) :=
  recent_papers ← lift (recent_only all_papers);
  _ ← print (MsgFiltered (length recent_papers));
  match recent_papers with
  | [] => _ ← print MsgFallback; mret (take 10 all_papers)
  | _ => mret recent_papers
  end.

(** [for paper in recent_papers: paper['trending_analysis'] = ...]; the
    clock is read once per record, [clock i] being the [i]-th reading. *)
Fixpoint enrich_trending (clock : nat → datetime) (i : nat)
    (papers : list (gmap string pyval)) : result (list (gmap string pyval)) :=
  match papers with
  | [] => Ok []
  | paper :: rest =>
      analysis ← calculate_trending_score (clock i) paper;
      rest' ← enrich_trending clock (S i) rest;
      Ok (<["trending_analysis" := VDict analysis]> paper :: rest')
  end.

(** [fetch_trending], from the decoded ["results"] list of the response
    on: the HTTP request itself is outside the model. *)
Definition fetch_trending (clock : nat → datetime)
    (all_papers : list (gmap string pyval)) : io (list (gmap string pyval)) :=
  _ ← print MsgFetching;
  _ ← print (MsgFound (length all_papers));
  recent_papers ← reduce_candidates all_papers;
  lift (enrich_trending clock 0 recent_papers).

Definition validate_external_trending (paper : gmap string pyval)
  : result (gmap string pyval) :=
  let arxiv_url := dict_get_default paper "url_abs" (VStr "") in
  on_arxiv ← py_contains "arxiv.org" arxiv_url;
  let url_slot := if on_arxiv : bool then arxiv_url else VNone in
  let score1 := if on_arxiv then 10 else 0 in
  let has_code := truthy (dict_get_default paper "github_stars" (VInt 0)) in
  let score2 := if has_code then score1 + 15 else score1 in
  let conference := py_or (dict_get paper "conference") (VStr "") in
  affiliated ←
    (if truthy conference
     then stripped ← py_strip conference; Ok (truthy (VStr stripped))
     else Ok false);
  let score3 := if affiliated : bool then score2 + 5 else score2 in
  Ok (<["validation_score" := VInt score3]>
      (<["has_code" := VBool has_code]>
       (<["arxiv_url" := url_slot]> ∅))).

(** [for paper in papers: paper['external_validation'] = ...] *)
Fixpoint add_validation (papers : list (gmap string pyval))
  : result (list (gmap string pyval)) :=
  match papers with
  | [] => Ok []
  | paper :: rest =>
      validation ← validate_external_trending paper;
      rest' ← add_validation rest;
      Ok (<["external_validation" := VDict validation]> paper :: rest')
  end.

(** The sort key of [pick_best]. Where [pick_best] calls it the
    validation operand is the integer it has just stored. *)
Definition combined_score (paper : gmap string pyval) : result Z :=
  trending_score ←
    py_get (dict_get_default paper "trending_analysis" (VDict ∅)) "total_score" (VInt 0);
  validation_score ←
    py_get (dict_get_default paper "external_validation" (VDict ∅)) "validation_score" (VInt 0);
  py_add_int trending_score validation_score.

Fixpoint keyed (papers : list (gmap string pyval))
  : result (list (Z * gmap string pyval)) :=
  match papers with
  | [] => Ok []
  | paper :: rest =>
      k ← combined_score paper;
      rest' ← keyed rest;
      Ok ((k, paper) :: rest')
  end.

(** [sorted(xs, key=..., reverse=True)] is a stable sort: descending by
    key, records with equal keys in their original order. It is modelled
    as a stable insertion sort on the (key, record) pairs. *)
Fixpoint insert_desc {A} (x : Z * A) (l : list (Z * A)) : list (Z * A) :=
  match l with
  | [] => [x]
  | y :: l' => if fst x <? fst y then y :: insert_desc x l' else x :: l
  end.

Definition sort_desc {A} (l : list (Z * A)) : list (Z * A) :=
  foldr insert_desc [] l.

Definition sorted_by_combined_score (papers : list (gmap string pyval))
  : result (list (gmap string pyval)) :=
  ks ← keyed papers;
  Ok (map snd (sort_desc ks)).

(** [v[:60]] *)
Definition py_slice60 (v : pyval) : result pyval :=
  match v with
  | VStr s => Ok (VStr (String.substring 0 60 s))
  | VList l => Ok (VList (take 60 l))
  | _ => Raise TypeError
  end.

(** One round of the top-3 loop of [pick_best]. *)
Definition report_candidate (i : nat) (paper : gmap string pyval) : io unit :=
  let trending := dict_get_default paper "trending_analysis" (VDict ∅) in
  let validation := dict_get_default paper "external_validation" (VDict ∅) in
  t ← lift (py_get trending "total_score" (VInt 0));
  v ← lift (py_get validation "validation_score" (VInt 0));
  total ← lift (py_add_int t v);
  title ← lift (dict_item paper "title");
  title_prefix ← lift (py_slice60 title);
  _ ← print (MsgCandidate i title_prefix);
  t' ← lift (py_get trending "total_score" (VInt 0));
  g ← lift (py_get trending "github_stars" (VInt 0));
  stars ← lift (py_floordiv10 g);
  r ← lift (py_get trending "recency_bonus" (VInt 0));
  c ← lift (py_get trending "conference_bonus" (VInt 0));
  _ ← print (MsgTrendingScore t' stars r c);
  v' ← lift (py_get validation "validation_score" (VInt 0));
  _ ← print (MsgValidationScore v');
  _ ← print (MsgTotalScore total);
  print MsgBlank.

Fixpoint report_top (i : nat) (papers : list (gmap string pyval)) : io unit :=
  match papers with
  | [] => mret tt
  | paper :: rest => _ ← report_candidate i paper; report_top (S i) rest
  end.

Definition pick_best (papers : list (gmap string pyval)) : io (gmap string pyval) :=
  match papers with
  | [] => mret ∅
  | _ =>
      _ ← print MsgAnalyzing;
      papers' ← lift (add_validation papers);
      sorted_papers ← lift (sorted_by_combined_score papers');
      _ ← print MsgTopCandidates;
      _ ← report_top 1 (take 3 sorted_papers);
      match sorted_papers with
      | best :: _ => mret best
      | [] => lift (Raise IndexError)
      end
  end.

(** * Part II: the vocabulary of the statements *)

(** Every character of [s] satisfies [f]. *)
Fixpoint str_forallb (f : ascii → bool) (s : string) : bool :=
  match s with
  | EmptyString => true
  | String c s' => f c && str_forallb f s'
  end.

(** ** The typed record of the data model

    The fields of a paper record as the data model types them: a title
    that is text; a URL that is text when present; a publication date, a
    conference and a star count that may be absent or null. *)

Definition title_ok (paper : gmap string pyval) : bool :=
  match paper !! "title" with
  | Some (VStr _) => true
  | _ => false
  end.

Definition url_ok (paper : gmap string pyval) : bool :=
  match paper !! "url_abs" with
  | None | Some (VStr _) => true
  | _ => false
  end.

Definition published_ok (paper : gmap string pyval) : bool :=
  match paper !! "published" with
  | None | Some VNone | Some (VStr _) => true
  | _ => false
  end.

Definition conference_ok (paper : gmap string pyval) : bool :=
  match paper !! "conference" with
  | None | Some VNone | Some (VStr _) => true
  | _ => false
  end.

Definition stars_ok (paper : gmap string pyval) : bool :=
  match paper !! "github_stars" with
  | None | Some VNone => true
  | Some (VInt n) => 0 <=? n
  | _ => false
  end.

(** A record of the response, typed as the data model has it. *)
Definition paper_record (paper : gmap string pyval) : bool :=
  title_ok paper && url_ok paper && published_ok paper &&
  conference_ok paper && stars_ok paper.

(** An integer, or a boolean, which Python adds and divides as one. *)
Definition int_valued (v : pyval) : bool :=
  match as_int v with Some _ => true | None => false end.

(** A record as the selector may receive it: either never scored, or
    carrying a breakdown whose total and star component are integers (as
    every breakdown [calculate_trending_score] returns is). *)
Definition trending_ok (paper : gmap string pyval) : bool :=
  match paper !! "trending_analysis" with
  | None => true
  | Some (VDict d) =>
      int_valued (dict_get_default d "total_score" (VInt 0)) &&
      int_valued (dict_get_default d "github_stars" (VInt 0))
  | Some _ => false
  end.

(** What [pick_best] reads of a record is typed. *)
Definition selectable (paper : gmap string pyval) : bool :=
  title_ok paper && url_ok paper && conference_ok paper && trending_ok paper.

(** ** Clock readings and recency tiers *)

(** A reading of [datetime.now()]: a valid datetime without a time zone. *)
Definition is_naive_datetime (now : datetime) : bool :=
  check_date_fields (year now) (month now) (day now) &&
  check_time_fields (hour now) (minute now) (second now) (microsecond now) &&
  match tzinfo now with None => true | Some _ => false end.

(** The recency bonus of an age in days. *)
Definition recency_tier (days_old : Z) : Z :=
  if days_old <=? 7 then 50
  else if days_old <=? 30 then 25
  else if days_old <=? 90 then 10
  else 0.

(** ** The recency filter as a predicate *)

(** A record passes when the filter returns [True]. *)
Definition is_recent (paper : gmap string pyval) : bool :=
  match is_recent_paper paper with
  | Ok b => b
  | Raise _ => false
  end.

(** The values on which the recency filter raises: a list with the
    member ["T"], a dict with the key ["T"]. *)
Definition holds_T (v : pyval) : bool :=
  match v with
  | VList l => existsb (is_str "T") l
  | VDict d => bool_decide (is_Some (d !! "T"))
  | _ => false
  end.

(** ** The validation signals, read off the record *)

(** The URL, when it is text that contains the preprint-server marker. *)
Definition preprint_url (paper : gmap string pyval) : option string :=
  match paper !! "url_abs" with
  | Some (VStr u) => if str_in "arxiv.org" u then Some u else None
  | _ => None
  end.

(** A star count that is present and truthy. *)
Definition has_nonzero_stars (paper : gmap string pyval) : bool :=
  match paper !! "github_stars" with
  | Some v => truthy v
  | None => false
  end.

(** A conference that is text with a character other than white space. *)
Definition has_venue (paper : gmap string pyval) : bool :=
  match paper !! "conference" with
  | Some (VStr c) => negb (str_forallb is_space c)
  | _ => false
  end.

Definition preprint_bonus (paper : gmap string pyval) : Z :=
  match preprint_url paper with Some _ => 10 | None => 0 end.
Definition code_bonus (paper : gmap string pyval) : Z :=
  if has_nonzero_stars paper then 15 else 0.
Definition venue_bonus (paper : gmap string pyval) : Z :=
  if has_venue paper then 5 else 0.

Definition validation_total (paper : gmap string pyval) : Z :=
  preprint_bonus paper + code_bonus paper + venue_bonus paper.

(** The breakdown the validator is to return. *)
Definition validation_of (paper : gmap string pyval) : gmap string pyval :=
  <["validation_score" := VInt (validation_total paper)]>
  (<["has_code" := VBool (has_nonzero_stars paper)]>
   (<["arxiv_url" := match preprint_url paper with
                     | Some u => VStr u
                     | None => VNone
                     end]> ∅)).

(** ** Combined scores and the validated record *)

(** The total of the attached score breakdown, 0 when there is none. *)
Definition trending_total (paper : gmap string pyval) : Z :=
  match paper !! "trending_analysis" with
  | Some (VDict d) => default 0 (as_int (dict_get_default d "total_score" (VInt 0)))
  | _ => 0
  end.

(** Combined score: score total plus validation total. *)
Definition combined_total (paper : gmap string pyval) : Z :=
  trending_total paper + validation_total paper.

(** The record after the validation write of [pick_best]. *)
Definition validated (paper : gmap string pyval) : gmap string pyval :=
  <["external_validation" := VDict (validation_of paper)]> paper.

(** ** Sorting by a key *)

(** [x] may stand before [y] in a descending list. *)
Definition key_ge {A} (x y : Z * A) : Prop := fst y ≤ fst x.

(** Sorting records by a key function. *)
Definition sorted_desc_by {A} (f : A → Z) (l : list A) : list A :=
  map snd (sort_desc (map (λ a, (f a, a)) l)).

(** ** Auxiliary predicates *)

(** [r] returns, or raises [ValueError]. *)
Definition only_value_error {A} (r : result A) : Prop :=
  ∀ e, r = Raise e → e = ValueError.

(** [m] prints something and returns [a]. *)
Definition returns {A} (m : io A) (a : A) : Prop := ∃ out, m = (out, Ok a).

(** The value of a result, [d] when it raised. *)
Definition ok_or {A} (d : A) (r : result A) : A :=
  match r with
  | Ok a => a
  | Raise _ => d
  end.

(** ** Example records *)

Definition paper_titled (title : string) : gmap string pyval :=
  {["title" := VStr title]}.

(** A reading of the clock: 15 June 2025, noon. *)
Definition noon_15_june : datetime := mkDatetime 2025 6 15 12 0 0 0 None.

(** Three records: the second and the third tie on the top score. *)
Definition three_papers : list (gmap string pyval) :=
  [ <["conference" := VStr "Workshop on Foo"]> (paper_titled "first");
    <["github_stars" := VInt 4]> (paper_titled "second");
    <["github_stars" := VInt 9]> (paper_titled "third") ].

(** Twelve records dated 2024, told apart by a rank field. *)
Definition old_paper (n : Z) : gmap string pyval :=
  <["published" := VStr "2024-03-01"]> (<["rank" := VInt n]> (paper_titled "An old paper")).

Definition twelve_old_papers : list (gmap string pyval) :=
  map old_paper [1; 2; 3; 4; 5; 6; 7; 8; 9; 10; 11; 12].

(** A record with all three validation signals. *)
Definition full_paper : gmap string pyval :=
  <["url_abs" := VStr "https://arxiv.org/abs/2501.00001"]>
  (<["github_stars" := VInt 100]>
   (<["conference" := VStr "ICML 2025"]> (paper_titled "Paper A"))).

(** A response of two records, one of 2025 and one older. *)
Definition response_papers : list (gmap string pyval) :=
  [ <["published" := VStr "2024-11-02"]> (paper_titled "Older");
    <["published" := VStr "2025-06-10"]>
      (<["abstract" := VStr "We study."]> (paper_titled "Newer")) ].

Definition response_candidates : list (gmap string pyval) :=
  ok_or [] (snd (fetch_trending (λ _, noon_15_june) response_papers)).

Definition response_best : gmap string pyval :=
  ok_or ∅ (snd (pick_best response_candidates)).

(** The ranking example of the specification: paper A (100 stars, three
    days old, ICML, on the preprint server) totals 1100, paper B (500
    stars, 120 days old, no venue, no preprint) totals 5015, and B is
    selected. *)
Definition paper_A : gmap string pyval :=
  <["github_stars" := VInt 100]>
  (<["published" := VStr "2025-06-12"]>
   (<["conference" := VStr "ICML 2025"]>
    (<["url_abs" := VStr "https://arxiv.org/abs/2506.00001"]> (paper_titled "Paper A")))).

Definition paper_B : gmap string pyval :=
  <["github_stars" := VInt 500]>
  (<["published" := VStr "2025-02-15"]>
   (<["url_abs" := VStr "https://example.org/b"]> (paper_titled "Paper B"))).

Definition ranked_candidates : list (gmap string pyval) :=
  ok_or [] (snd (fetch_trending (λ _, noon_15_june) [paper_A; paper_B])).

(** ** Further vocabulary *)

(** The star count the scorer multiplies: the integer value of
    [github_stars], 0 when the field is absent or falsy. *)
Definition star_count (paper : gmap string pyval) : Z :=
  match paper !! "github_stars" with
  | Some v => default 0 (as_int v)
  | None => 0
  end.

(** The text of the title, and a field of the attached score breakdown
    as the report reads it (0 when the breakdown or the field is
    missing). *)
Definition title_text (paper : gmap string pyval) : string :=
  match paper !! "title" with
  | Some (VStr t) => t
  | _ => ""
  end.

Definition breakdown_field (paper : gmap string pyval) (k : string) : pyval :=
  match paper !! "trending_analysis" with
  | Some (VDict d) => dict_get_default d k (VInt 0)
  | _ => VInt 0
  end.

(** The five lines the top-3 report prints for the record ranked [i]. *)
Definition candidate_report (i : nat) (paper : gmap string pyval) : list event :=
  [ MsgCandidate i (VStr (String.substring 0 60 (title_text paper)));
    MsgTrendingScore (breakdown_field paper "total_score")
      (default 0 (as_int (breakdown_field paper "github_stars")) / 10)
      (breakdown_field paper "recency_bonus")
      (breakdown_field paper "conference_bonus");
    MsgValidationScore (VInt (validation_total paper));
    MsgTotalScore (combined_total paper);
    MsgBlank ].

(** The ranks and the totals a trace shows. *)
Definition ranks_of (out : list event) : list nat :=
  flat_map (λ e, match e with MsgCandidate i _ => [i] | _ => [] end) out.

Definition totals_of (out : list event) : list Z :=
  flat_map (λ e, match e with MsgTotalScore t => [t] | _ => [] end) out.

(** * Part III: lemmas *)

(** ** Basic facts about results and strings *)

Lemma bind_Ok_inv {A B} (f : A → result B) (r : result A) (b : B) :
  r ≫= f = Ok b → ∃ a, r = Ok a ∧ f a = Ok b.
Proof. destruct r as [a|e]; simpl; [eauto | discriminate]. Qed.

Lemma prefix_forallb f needle hay :
  String.prefix needle hay = true →
  str_forallb f hay = true → str_forallb f needle = true.
Proof.
  revert hay. induction needle as [|c needle IH]; intros hay Hp Hall; [done|].
  destruct hay as [|a hay]; simpl in Hp; [discriminate|].
  destruct (ascii_dec c a) as [->|]; [|discriminate].
  simpl in *. apply andb_true_iff in Hall as [Ha Hall].
  rewrite Ha. simpl. eauto.
Qed.

Lemma str_in_forallb f needle hay :
  str_in needle hay = true →
  str_forallb f hay = true → str_forallb f needle = true.
Proof.
  induction hay as [|a hay IH]; intros Hin Hall.
  - cbn [str_in] in Hin. rewrite orb_false_r in Hin.
    by apply (prefix_forallb f needle EmptyString).
  - cbn [str_in] in Hin. apply orb_true_iff in Hin as [Hp|Hin].
    + by apply (prefix_forallb f needle (String a hay)).
    + cbn [str_forallb] in Hall. apply andb_true_iff in Hall as [_ Hall]. auto.
Qed.

Lemma upper_char_not_lower c : is_lower (upper_char c) = false.
Proof. destruct c as [[] [] [] [] [] [] [] []]; reflexivity. Qed.

Lemma str_upper_no_lower s :
  str_forallb (λ c, negb (is_lower c)) (str_upper s) = true.
Proof.
  induction s as [|c s IH]; simpl; [done|].
  by rewrite upper_char_not_lower, IH.
Qed.

(** An upper-cased string contains no name that has a lower-case letter. *)
Lemma mixed_case_never_in_upper needle s :
  str_forallb (λ c, negb (is_lower c)) needle = false →
  str_in needle (str_upper s) = false.
Proof.
  intros Hmixed. destruct (str_in needle (str_upper s)) eqn:Hin; [|done].
  apply (str_in_forallb (λ c, negb (is_lower c))) in Hin.
  - congruence.
  - apply str_upper_no_lower.
Qed.

Lemma neurips_never_matches s : str_in "NeurIPS" (str_upper s) = false.
Proof. by apply mixed_case_never_in_upper. Qed.

(** The venue test on a textual conference field: only the six all-caps
    names of the list can ever match. *)
Lemma conference_component_text paper s :
  paper !! "conference" = Some (VStr s) →
  conference_component paper =
    Ok (if existsb (λ conf, str_in conf (str_upper s))
             ["ICLR"; "ICML"; "AAAI"; "IJCAI"; "ACL"; "EMNLP"]
        then 20 else 0).
Proof.
  intros Hc. unfold conference_component, dict_get, py_or. rewrite Hc. simpl.
  destruct s as [|c s]; [reflexivity|].
  change (String c s =? "")%string with false. cbn [negb truthy py_upper mbind result_bind].
  change (String c s =? "")%string with false. cbn [negb].
  by rewrite (neurips_never_matches (String c s)).
Qed.

(** ** Parsing a textual date never raises anything but [ValueError] *)

Create HintDb value_error.

Lemma ove_Ok {A} (a : A) : only_value_error (Ok a).
Proof. intros e; discriminate. Qed.

Lemma ove_Raise {A} : only_value_error (@Raise A ValueError).
Proof. intros e; congruence. Qed.

Lemma ove_bind {A B} (r : result A) (f : A → result B) :
  only_value_error r → (∀ a, only_value_error (f a)) →
  only_value_error (r ≫= f).
Proof.
  intros Hr Hf e. destruct r as [a|e']; simpl.
  - apply Hf.
  - intros [= ->]. by apply Hr.
Qed.

#[global] Hint Resolve ove_Ok ove_Raise : value_error.

Ltac ove_step :=
  match goal with
  | |- only_value_error (_ ≫= _) => apply ove_bind; [|intros ?]
  | |- only_value_error (let '(_, _) := ?p in _) => destruct p
  | |- only_value_error (match ?x with _ => _ end) => destruct x
  | |- only_value_error (if ?b then _ else _) => destruct b
  end.

Ltac ove := repeat (first [ solve [auto with value_error] | ove_step ]).

Lemma ove_parse_digits n s : only_value_error (parse_digits n s).
Proof. unfold parse_digits. ove. Qed.

Lemma ove_expect_char c s : only_value_error (expect_char c s).
Proof. unfold expect_char. ove. Qed.

Lemma ove_strptime_month s : only_value_error (strptime_month s).
Proof. unfold strptime_month. ove. Qed.

Lemma ove_strptime_day s : only_value_error (strptime_day s).
Proof. unfold strptime_day. ove. Qed.

Lemma ove_new_datetime y m d hh mm ss us tz :
  only_value_error (new_datetime y m d hh mm ss us tz).
Proof. unfold new_datetime. ove. Qed.

Lemma ove_new_timezone off : only_value_error (new_timezone off).
Proof. unfold new_timezone. ove. Qed.

#[global] Hint Resolve ove_parse_digits ove_expect_char ove_strptime_month
  ove_strptime_day ove_new_datetime ove_new_timezone : value_error.

Lemma ove_strptime_ymd s : only_value_error (strptime_ymd s).
Proof. unfold strptime_ymd. ove. Qed.

Lemma ove_parse_isoformat_date s : only_value_error (parse_isoformat_date s).
Proof. unfold parse_isoformat_date. ove. Qed.

Lemma ove_parse_hh_mm_ss_ff s : only_value_error (parse_hh_mm_ss_ff s).
Proof. unfold parse_hh_mm_ss_ff. ove. Qed.

#[global] Hint Resolve ove_strptime_ymd ove_parse_isoformat_date
  ove_parse_hh_mm_ss_ff : value_error.

Lemma ove_parse_isoformat_time s : only_value_error (parse_isoformat_time s).
Proof. unfold parse_isoformat_time. ove. Qed.

#[global] Hint Resolve ove_parse_isoformat_time : value_error.

Lemma ove_fromisoformat s : only_value_error (fromisoformat s).
Proof. unfold fromisoformat. ove. Qed.

#[global] Hint Resolve ove_fromisoformat : value_error.

Lemma ove_parse_published_text s : only_value_error (parse_published (VStr s)).
Proof. unfold parse_published. simpl. ove. Qed.

(** On text, [parse_published] is the dispatch on ["T"]. *)
Lemma parse_published_text s :
  parse_published (VStr s) =
    if str_in "T" s then fromisoformat (str_replace_char "Z" "+00:00" s)
    else strptime_ymd s.
Proof. unfold parse_published. simpl. by destruct (str_in "T" s). Qed.

(** The recency filter on a textual, non-empty [published] field. *)
Lemma is_recent_paper_text paper s :
  paper !! "published" = Some (VStr s) → s ≠ "" →
  is_recent_paper paper =
    Ok (match parse_published (VStr s) with
        | Ok paper_date => CURRENT_YEAR <=? year paper_date
        | Raise _ => false
        end).
Proof.
  intros Hp Hs. unfold is_recent_paper, dict_get. rewrite Hp. simpl.
  destruct (String.eqb_spec s "") as [|_]; [done|]. simpl.
  pose proof (ove_parse_published_text s) as Hove.
  destruct (parse_published (VStr s)) as [d|e]; simpl; [done|].
  by rewrite (Hove e eq_refl).
Qed.

(** The recency filter returns on every record whose [published] field
    is absent, null or text. *)
Lemma is_recent_paper_total paper :
  published_ok paper = true → ∃ b, is_recent_paper paper = Ok b.
Proof.
  unfold published_ok. intros Hok.
  destruct (paper !! "published") as [v|] eqn:Hp.
  - destruct v as [| | |s| |]; try discriminate.
    + exists false. unfold is_recent_paper, dict_get. by rewrite Hp.
    + destruct (String.eqb_spec s "") as [->|Hs].
      * exists false. unfold is_recent_paper, dict_get. by rewrite Hp.
      * rewrite (is_recent_paper_text paper s) by done. eauto.
  - exists false. unfold is_recent_paper, dict_get. by rewrite Hp.
Qed.

(** The filter returns on every record but those: there it raises
    [AttributeError]. *)
Lemma is_recent_paper_outcome paper :
  if holds_T (dict_get paper "published")
  then is_recent_paper paper = Raise AttributeError
  else ∃ b, is_recent_paper paper = Ok b.
Proof.
  unfold is_recent_paper. destruct (dict_get paper "published") as [|b|n|s|l|d].
  - by exists false.
  - simpl. destruct b; by exists false.
  - simpl. destruct (n =? 0); by exists false.
  - cbn [holds_T truthy]. destruct (negb (s =? "")%string); [|by exists false].
    cbn [negb]. pose proof (ove_parse_published_text s) as Hove.
    destruct (parse_published (VStr s)) as [dt|e]; simpl; [by eexists|].
    rewrite (Hove e eq_refl). by exists false.
  - destruct l as [|x l]; [by exists false|].
    cbn [holds_T truthy negb]. unfold parse_published. cbn [py_contains mbind result_bind].
    destruct (existsb (is_str "T") (x :: l)); simpl; [done|by exists false].
  - cbn [holds_T truthy]. unfold parse_published. cbn [py_contains mbind result_bind].
    destruct (bool_decide (d = ∅)) eqn:Hempty.
    + apply bool_decide_eq_true in Hempty as ->. simpl.
      rewrite bool_decide_eq_false_2; [by exists false|].
      rewrite lookup_empty. by intros [? [=]].
    + cbn [negb]. destruct (bool_decide (is_Some (d !! "T"))); simpl;
        [done|by exists false].
Qed.

Example recent_jan_1_of_cutoff_year :
  is_recent_paper {["published" := VStr "2025-01-01"]} = Ok true.
Proof. reflexivity. Qed.

Example not_recent_dec_31_of_prior_year :
  is_recent_paper {["published" := VStr "2024-12-31"]} = Ok false.
Proof. reflexivity. Qed.

Example recent_future_date :
  is_recent_paper {["published" := VStr "2031-05-05"]} = Ok true.
Proof. reflexivity. Qed.

Example recent_timestamp :
  is_recent_paper {["published" := VStr "2025-01-15T10:30:00Z"]} = Ok true.
Proof. reflexivity. Qed.

Example not_recent_malformed :
  is_recent_paper {["published" := VStr "not-a-date"]} = Ok false.
Proof. reflexivity. Qed.

Example not_recent_absent : is_recent_paper ∅ = Ok false.
Proof. reflexivity. Qed.

Example not_recent_number :
  is_recent_paper {["published" := VInt 20250115]} = Ok false.
Proof. reflexivity. Qed.

(** ** Dates: what the plain-date parser returns, and ages in days *)

Lemma new_datetime_Ok y m d hh mm ss us tz dt :
  new_datetime y m d hh mm ss us tz = Ok dt →
  dt = mkDatetime y m d hh mm ss us tz ∧
  check_date_fields y m d = true ∧ check_time_fields hh mm ss us = true.
Proof.
  unfold new_datetime.
  destruct (check_date_fields y m d) eqn:Hd; simpl; [|discriminate].
  destruct (check_time_fields hh mm ss us) eqn:Ht; simpl; [|discriminate].
  by intros [= <-].
Qed.

(** [strptime] with the format ["%Y-%m-%d"] yields a naive datetime at
    midnight of an existing day. *)
Lemma strptime_ymd_midnight s dt :
  strptime_ymd s = Ok dt →
  hour dt = 0 ∧ minute dt = 0 ∧ second dt = 0 ∧ microsecond dt = 0 ∧
  tzinfo dt = None ∧ check_date_fields (year dt) (month dt) (day dt) = true.
Proof.
  unfold strptime_ymd. intros H.
  apply bind_Ok_inv in H as (y & _ & H).
  apply bind_Ok_inv in H as (rest & _ & H).
  destruct (str_find "-" rest) as [i|]; [|discriminate].
  apply bind_Ok_inv in H as (m & _ & H).
  apply bind_Ok_inv in H as (d & _ & H).
  apply new_datetime_Ok in H as (-> & Hd & _). by simpl.
Qed.

Lemma is_naive_datetime_inv now :
  is_naive_datetime now = true →
  tzinfo now = None ∧
  0 ≤ second now + minute now * 60 + hour now * 3600 < 86400 ∧
  0 ≤ microsecond now < 1000000.
Proof.
  unfold is_naive_datetime, check_time_fields. intros H.
  repeat (apply andb_true_iff in H as [H ?]).
  destruct (tzinfo now); [discriminate|]. split; [done|]. lia.
Qed.

(** Against a datetime at midnight, the [days] of the difference is the
    difference of the two day numbers, whatever the time of day of [now]. *)
Lemma sub_days_midnight now dt :
  is_naive_datetime now = true →
  hour dt = 0 → minute dt = 0 → second dt = 0 → microsecond dt = 0 →
  tzinfo dt = None →
  sub_days now dt = Ok (toordinal now - toordinal dt).
Proof.
  intros Hnow Hh Hm Hs Hu Htz.
  apply is_naive_datetime_inv in Hnow as (Hn & Hsecs & Hus).
  unfold sub_days. rewrite Hn, Htz, Hh, Hm, Hs, Hu. f_equal.
  unfold us_per_day.
  set (delta := toordinal now - toordinal dt).
  set (secs := second now + minute now * 60 + hour now * 3600) in *.
  symmetry. apply Z.div_unique with (r := secs * 1000000 + microsecond now); lia.
Qed.


(** The recency component on a parseable [published] text. *)
Lemma recency_component_parsed now paper s dt :
  paper !! "published" = Some (VStr s) →
  parse_published (VStr s) = Ok dt →
  recency_component now paper =
    match sub_days now dt with
    | Ok days_old => Ok (recency_tier days_old)
    | Raise _ => Ok 0
    end.
Proof.
  intros Hp Hparse. unfold recency_component, dict_get, dict_item. rewrite Hp.
  assert (s ≠ "") as Hs.
  { intros ->. revert Hparse. by vm_compute. }
  simpl. destruct (String.eqb_spec s "") as [|_]; [done|]. simpl.
  rewrite Hparse. simpl.
  unfold sub_days. destruct (tzinfo now), (tzinfo dt); reflexivity.
Qed.


(** The recency component returns on every typed record. *)
Lemma recency_component_total now paper :
  published_ok paper = true →
  ∃ r, recency_component now paper = Ok r ∧ 0 ≤ r ≤ 50.
Proof.
  unfold published_ok. intros Hok.
  destruct (paper !! "published") as [v|] eqn:Hp.
  - destruct v as [| | |s| |]; try discriminate.
    + exists 0. unfold recency_component, dict_get. rewrite Hp. simpl. split; [done|lia].
    + destruct (parse_published (VStr s)) as [dt|e] eqn:Hparse.
      * rewrite (recency_component_parsed now paper s dt) by done.
        destruct (sub_days now dt) as [n|]; [|exists 0; split; [done|lia]].
        exists (recency_tier n). split; [done|]. unfold recency_tier.
        repeat case_match; lia.
      * exists 0. unfold recency_component, dict_get, dict_item. rewrite Hp.
        simpl. destruct (negb (s =? "")%string); [|split; [done|lia]].
        simpl. rewrite Hparse. simpl.
        rewrite (ove_parse_published_text s e Hparse). simpl. split; [done|lia].
  - exists 0. unfold recency_component, dict_get. rewrite Hp. simpl. split; [done|lia].
Qed.

(** The two other components on a typed record. *)
Lemma github_component_typed paper :
  stars_ok paper = true →
  ∃ n, github_component paper = Ok (VInt (n * 10)) ∧ 0 ≤ n ∧
       n = match paper !! "github_stars" with Some (VInt k) => k | _ => 0 end.
Proof.
  unfold stars_ok, github_component, dict_get_default, py_or. intros Hok.
  destruct (paper !! "github_stars") as [v|]; simpl.
  - destruct v as [| |n| | |]; try discriminate; simpl.
    + exists 0. split; [done|]. split; [lia|done].
    + exists n. apply Z.leb_le in Hok.
      destruct (Z.eqb_spec n 0) as [->|]; simpl; split; try done; split; try done; lia.
  - exists 0. split; [done|]. split; [lia|done].
Qed.

Lemma conference_component_typed paper :
  conference_ok paper = true →
  ∃ c, conference_component paper = Ok c ∧ (c = 0 ∨ c = 20).
Proof.
  unfold conference_ok. intros Hok.
  destruct (paper !! "conference") as [v|] eqn:Hc.
  - destruct v as [| | |s| |]; try discriminate.
    + exists 0. unfold conference_component, dict_get. rewrite Hc. by auto.
    + rewrite (conference_component_text paper s Hc).
      eexists. split; [done|]. case_match; auto.
  - exists 0. unfold conference_component, dict_get. rewrite Hc. by auto.
Qed.

(** The breakdown the scorer returns when its three components are
    integers. *)
Lemma calculate_trending_score_fields now paper g r c :
  github_component paper = Ok (VInt g) →
  recency_component now paper = Ok r →
  conference_component paper = Ok c →
  calculate_trending_score now paper =
    Ok (<["total_score" := VInt (g + r + c)]>
        (<["conference_bonus" := VInt c]>
         (<["recency_bonus" := VInt r]>
          (<["github_stars" := VInt g]> ∅)))).
Proof.
  intros Hg Hr Hc. unfold calculate_trending_score. by rewrite Hg, Hr, Hc.
Qed.

(** The scorer returns on every typed record, with a well-formed
    breakdown. *)
Lemma calculate_trending_score_total now paper :
  stars_ok paper = true → published_ok paper = true → conference_ok paper = true →
  ∃ g r c, calculate_trending_score now paper =
    Ok (<["total_score" := VInt (g + r + c)]>
        (<["conference_bonus" := VInt c]>
         (<["recency_bonus" := VInt r]>
          (<["github_stars" := VInt g]> ∅)))) ∧
    recency_component now paper = Ok r ∧
    conference_component paper = Ok c.
Proof.
  intros Hs Hp Hc.
  destruct (github_component_typed paper Hs) as (n & Hg & _).
  destruct (recency_component_total now paper Hp) as (r & Hr & _).
  destruct (conference_component_typed paper Hc) as (c & Hcc & _).
  exists (n * 10), r, c. split; [|done].
  by apply calculate_trending_score_fields.
Qed.

(** What a returned breakdown holds. *)
Lemma py_mul10_int a g n : py_mul10 a = Ok g → as_int g = Some n → g = VInt n.
Proof.
  destruct a as [|b|k|t|l|d]; simpl; intros [= <-]; simpl; intros [= <-]; done.
Qed.

Lemma calculate_trending_score_inv now paper sb :
  calculate_trending_score now paper = Ok sb →
  ∃ g r c,
    github_component paper = Ok (VInt g) ∧
    recency_component now paper = Ok r ∧
    conference_component paper = Ok c ∧
    sb = <["total_score" := VInt (g + r + c)]>
         (<["conference_bonus" := VInt c]>
          (<["recency_bonus" := VInt r]>
           (<["github_stars" := VInt g]> ∅))).
Proof.
  unfold calculate_trending_score. intros H.
  apply bind_Ok_inv in H as (gv & Hg & H).
  apply bind_Ok_inv in H as (r & Hr & H).
  apply bind_Ok_inv in H as (c & Hc & H).
  apply bind_Ok_inv in H as (partial & Hpartial & H).
  apply bind_Ok_inv in H as (total & Htotal & H).
  unfold py_add_int in Hpartial, Htotal. simpl in Hpartial, Htotal.
  destruct (as_int gv) as [g|] eqn:Hint; [|discriminate].
  injection Hpartial as <-. injection Htotal as <-. injection H as <-.
  unfold github_component in Hg.
  pose proof (py_mul10_int _ gv g Hg Hint) as ->.
  by exists g, r, c.
Qed.

(** ** The external validator on typed records *)

Lemma str_lstrip_empty s :
  String.eqb (str_lstrip s) "" = str_forallb is_space s.
Proof.
  induction s as [|c s IH]; simpl; [done|].
  destruct (is_space c); simpl; [done|reflexivity].
Qed.

Lemma str_rstrip_spaces s :
  str_forallb is_space (str_rstrip s) = str_forallb is_space s.
Proof.
  induction s as [|c s IH]; simpl; [done|].
  destruct (str_rstrip s) as [|a r]; simpl in *.
  - rewrite <- IH. destruct (is_space c) eqn:Hc; simpl; [done|by rewrite Hc].
  - by rewrite IH.
Qed.

(** Stripping leaves nothing exactly when every character is white space. *)
Lemma str_strip_empty s :
  String.eqb (str_strip s) "" = str_forallb is_space s.
Proof. unfold str_strip. by rewrite str_lstrip_empty, str_rstrip_spaces. Qed.

Lemma affiliated_text c :
  (if truthy (py_or (VStr c) (VStr ""))
   then stripped ← py_strip (py_or (VStr c) (VStr "")); Ok (truthy (VStr stripped))
   else Ok false) = Ok (negb (str_forallb is_space c)).
Proof.
  destruct c as [|a c]; [reflexivity|].
  change (py_or (VStr (String a c)) (VStr "")) with (VStr (String a c)).
  change (truthy (VStr (String a c))) with true. cbn [py_strip mbind result_bind truthy].
  by rewrite str_strip_empty.
Qed.

Lemma validate_external_trending_typed paper :
  url_ok paper = true → conference_ok paper = true →
  validate_external_trending paper = Ok (validation_of paper).
Proof.
  unfold url_ok, conference_ok. intros Hu Hc.
  unfold validate_external_trending, validation_of, validation_total,
    preprint_bonus, code_bonus, venue_bonus, preprint_url, has_nonzero_stars,
    has_venue, dict_get_default, dict_get.
  assert ((if truthy (py_or (default VNone (paper !! "conference")) (VStr ""))
           then stripped ← py_strip (py_or (default VNone (paper !! "conference")) (VStr ""));
                Ok (truthy (VStr stripped))
           else Ok false) =
          Ok (match paper !! "conference" with
              | Some (VStr c) => negb (str_forallb is_space c)
              | _ => false
              end)) as ->.
  { destruct (paper !! "conference") as [[| | |c| |]|]; try discriminate;
      try reflexivity.
    apply affiliated_text. }
  destruct (paper !! "url_abs") as [[| | |u| |]|]; try discriminate; simpl.
  - destruct (str_in "arxiv.org" u); simpl;
      destruct (paper !! "github_stars") as [v|]; simpl;
      try destruct (truthy v); simpl;
      destruct (paper !! "conference") as [[| | |c| |]|]; simpl;
      try destruct (str_forallb is_space c); reflexivity.
  - destruct (paper !! "github_stars") as [v|]; simpl;
      try destruct (truthy v); simpl;
      destruct (paper !! "conference") as [[| | |c| |]|]; simpl;
      try destruct (str_forallb is_space c); reflexivity.
Qed.

Lemma validation_total_bounds paper : 0 ≤ validation_total paper ≤ 30.
Proof.
  unfold validation_total, preprint_bonus, code_bonus, venue_bonus.
  repeat case_match; lia.
Qed.

(** ** The sort: a permutation, descending, and stable *)

Section sorting.
Context {A : Type} (f : A → Z).
Implicit Types (x : Z * A) (l : list (Z * A)).

Lemma insert_desc_perm x l : insert_desc x l ≡ₚ x :: l.
Proof.
  induction l as [|y l IH]; simpl; [done|].
  destruct (fst x <? fst y); [|done].
  rewrite IH. apply perm_swap.
Qed.

Lemma sort_desc_perm l : sort_desc l ≡ₚ l.
Proof.
  induction l as [|x l IH]; simpl; [done|].
  by rewrite insert_desc_perm, IH.
Qed.

Lemma insert_desc_sorted x l :
  StronglySorted key_ge l → StronglySorted key_ge (insert_desc x l).
Proof.
  induction 1 as [|y l Hl IH Hy]; simpl.
  - repeat constructor.
  - destruct (Z.ltb_spec (fst x) (fst y)) as [Hlt|Hge].
    + constructor; [done|].
      rewrite insert_desc_perm. constructor; [unfold key_ge; lia|done].
    + constructor; [by constructor|].
      constructor; [done|].
      eapply Forall_impl; [exact Hy|]. unfold key_ge. intros; lia.
Qed.

Lemma sort_desc_sorted l : StronglySorted key_ge (sort_desc l).
Proof.
  induction l as [|x l IH]; simpl; [constructor|].
  by apply insert_desc_sorted.
Qed.

Lemma insert_desc_stable v x l :
  filter (λ y, fst y = v) (insert_desc x l) = filter (λ y, fst y = v) (x :: l).
Proof.
  induction l as [|y l IH]; simpl; [done|].
  destruct (Z.ltb_spec (fst x) (fst y)) as [Hlt|Hge]; [|done].
  rewrite (filter_cons _ y), IH, !filter_cons.
  repeat case_decide; try done; lia.
Qed.

Lemma sort_desc_stable v l :
  filter (λ y, fst y = v) (sort_desc l) = filter (λ y, fst y = v) l.
Proof.
  induction l as [|x l IH]; simpl; [done|].
  by rewrite insert_desc_stable, !filter_cons, IH.
Qed.

Lemma sorted_desc_by_perm (l : list A) : sorted_desc_by f l ≡ₚ l.
Proof.
  unfold sorted_desc_by. rewrite sort_desc_perm, map_map. simpl.
  by rewrite map_id.
Qed.

Lemma tagged_sorted (l : list (Z * A)) :
  Forall (λ x, fst x = f (snd x)) l →
  StronglySorted key_ge l →
  StronglySorted (λ a b, f b ≤ f a) (map snd l).
Proof.
  intros Htag. induction 1 as [|x l Hl IH Hx]; simpl; [constructor|].
  apply Forall_cons in Htag as [Hx' Htag].
  constructor; [by apply IH|].
  apply Forall_map. apply Forall_forall. intros y Hy. simpl.
  rewrite Forall_forall in Hx, Htag.
  specialize (Hx y Hy). specialize (Htag y Hy). unfold key_ge in Hx. lia.
Qed.

Lemma tagged_filter v (l : list (Z * A)) :
  Forall (λ x, fst x = f (snd x)) l →
  filter (λ a, f a = v) (map snd l) = map snd (filter (λ x, fst x = v) l).
Proof.
  induction 1 as [|x l Hx Hl IH]; simpl; [done|].
  rewrite !filter_cons, IH.
  repeat case_decide; try done; congruence.
Qed.

Lemma tags_hold (l : list A) :
  Forall (λ x, fst x = f (snd x)) (map (λ a, (f a, a)) l).
Proof. apply Forall_map. by apply Forall_true. Qed.

Lemma sorted_desc_by_sorted (l : list A) :
  StronglySorted (λ a b, f b ≤ f a) (sorted_desc_by f l).
Proof.
  unfold sorted_desc_by. apply tagged_sorted; [|apply sort_desc_sorted].
  rewrite sort_desc_perm. apply tags_hold.
Qed.

Lemma sorted_desc_by_stable v (l : list A) :
  filter (λ a, f a = v) (sorted_desc_by f l) = filter (λ a, f a = v) l.
Proof.
  unfold sorted_desc_by. rewrite tagged_filter.
  - rewrite sort_desc_stable, <- tagged_filter by apply tags_hold.
    rewrite map_map. simpl. by rewrite map_id.
  - rewrite sort_desc_perm. apply tags_hold.
Qed.

(** The head of the sorted list is the first record of the input
    that carries the maximal key. *)
Lemma sorted_desc_by_head (l : list A) best rest :
  sorted_desc_by f l = best :: rest →
  best ∈ l ∧ Forall (λ a, f a ≤ f best) l ∧
  head (filter (λ a, f a = f best) l) = Some best.
Proof.
  intros Hs.
  pose proof (sorted_desc_by_perm l) as Hperm.
  pose proof (sorted_desc_by_sorted l) as Hsorted.
  pose proof (sorted_desc_by_stable (f best) l) as Hstable.
  rewrite Hs in Hperm, Hsorted, Hstable.
  split; [|split].
  - rewrite <- Hperm. apply list_elem_of_here.
  - rewrite <- Hperm. apply StronglySorted_inv in Hsorted as [_ Hle].
    constructor; [lia|done].
  - rewrite <- Hstable, filter_cons. by case_decide.
Qed.
End sorting.

(** ** The selector on typed records *)

Lemma selectable_inv paper :
  selectable paper = true →
  title_ok paper = true ∧ url_ok paper = true ∧
  conference_ok paper = true ∧ trending_ok paper = true.
Proof.
  unfold selectable. intros H.
  repeat (apply andb_true_iff in H as [H ?]). done.
Qed.

Lemma add_validation_typed papers :
  Forall (λ p, url_ok p = true ∧ conference_ok p = true) papers →
  add_validation papers = Ok (map validated papers).
Proof.
  induction 1 as [|p papers [Hu Hc] _ IH]; simpl; [done|].
  rewrite validate_external_trending_typed by done. simpl.
  by rewrite IH.
Qed.

Lemma validation_of_score paper dflt :
  dict_get_default (validation_of paper) "validation_score" dflt
  = VInt (validation_total paper).
Proof. unfold dict_get_default, validation_of. by rewrite lookup_insert_eq. Qed.

Lemma validated_lookup paper :
  validated paper !! "external_validation" = Some (VDict (validation_of paper)).
Proof. unfold validated. by rewrite lookup_insert_eq. Qed.

Lemma validated_lookup_ne paper k :
  k ≠ "external_validation" → validated paper !! k = paper !! k.
Proof. intros Hk. unfold validated. by rewrite lookup_insert_ne. Qed.

Lemma validated_get paper dflt :
  dict_get_default (validated paper) "external_validation" dflt
  = VDict (validation_of paper).
Proof. unfold dict_get_default. by rewrite validated_lookup. Qed.

Lemma validated_get_ne paper k dflt :
  k ≠ "external_validation" →
  dict_get_default (validated paper) k dflt = dict_get_default paper k dflt.
Proof. intros Hk. unfold dict_get_default. by rewrite validated_lookup_ne. Qed.

Lemma dict_get_default_Some (m : gmap string pyval) k v dflt :
  m !! k = Some v → dict_get_default m k dflt = v.
Proof. intros H. unfold dict_get_default. by rewrite H. Qed.

Lemma dict_get_default_None (m : gmap string pyval) k dflt :
  m !! k = None → dict_get_default m k dflt = dflt.
Proof. intros H. unfold dict_get_default. by rewrite H. Qed.

Lemma combined_score_validated paper :
  trending_ok paper = true →
  combined_score (validated paper) = Ok (combined_total paper).
Proof.
  unfold trending_ok, combined_score, combined_total, trending_total.
  rewrite validated_get, validated_get_ne by done.
  cbn [py_get]. rewrite validation_of_score. intros Hok.
  destruct (paper !! "trending_analysis") as [[| | | | |d]|] eqn:Hta;
    try discriminate.
  - rewrite (dict_get_default_Some _ _ _ _ Hta). cbn [py_get mbind result_bind].
    apply andb_true_iff in Hok as [Ht _]. unfold int_valued in Ht.
    unfold py_add_int.
    by destruct (as_int (dict_get_default d "total_score" (VInt 0))).
  - by rewrite (dict_get_default_None _ _ _ Hta).
Qed.

Lemma keyed_validated papers :
  Forall (λ p, trending_ok p = true) papers →
  keyed (map validated papers)
  = Ok (map (λ p, (combined_total p, validated p)) papers).
Proof.
  induction 1 as [|p papers Hp _ IH]; simpl; [done|].
  rewrite combined_score_validated by done. simpl. by rewrite IH.
Qed.

(** Sorting commutes with a map that leaves the keys alone. *)
Lemma insert_desc_map {A B} (h : A → B) k a (l : list (Z * A)) :
  insert_desc (k, h a) (map (prod_map id h) l)
  = map (prod_map id h) (insert_desc (k, a) l).
Proof.
  induction l as [|[k' a'] l IH]; simpl; [done|].
  destruct (k <? k'); simpl; [by rewrite IH|done].
Qed.

Lemma sort_desc_map {A B} (g : A → Z) (h : A → B) (l : list A) :
  map snd (sort_desc (map (λ a, (g a, h a)) l)) = map h (sorted_desc_by g l).
Proof.
  unfold sorted_desc_by.
  assert (sort_desc (map (λ a, (g a, h a)) l)
          = map (prod_map id h) (sort_desc (map (λ a, (g a, a)) l))) as ->.
  { induction l as [|a l IH]; simpl; [done|].
    by rewrite IH, insert_desc_map. }
  rewrite !map_map. done.
Qed.

Lemma sorted_by_combined_score_validated papers :
  Forall (λ p, trending_ok p = true) papers →
  sorted_by_combined_score (map validated papers)
  = Ok (map validated (sorted_desc_by combined_total papers)).
Proof.
  intros Hok. unfold sorted_by_combined_score.
  rewrite keyed_validated by done. simpl. by rewrite sort_desc_map.
Qed.

(** The defaults of the sort key. *)
Lemma dict_get_default_insert_ne (m : gmap string pyval) k k' v dflt :
  k ≠ k' → dict_get_default (<[k := v]> m) k' dflt = dict_get_default m k' dflt.
Proof. intros Hk. unfold dict_get_default. by rewrite lookup_insert_ne. Qed.

Lemma dict_get_default_insert (m : gmap string pyval) k v dflt :
  dict_get_default (<[k := v]> m) k dflt = v.
Proof. unfold dict_get_default. by rewrite lookup_insert_eq. Qed.

Lemma combined_score_missing_trending paper :
  paper !! "trending_analysis" = None →
  combined_score paper
  = combined_score
      (<["trending_analysis" := VDict {["total_score" := VInt 0]}]> paper).
Proof.
  intros Hnone. unfold combined_score.
  rewrite (dict_get_default_None paper "trending_analysis") by done.
  rewrite dict_get_default_insert, dict_get_default_insert_ne by done.
  reflexivity.
Qed.

Lemma combined_score_missing_validation paper :
  paper !! "external_validation" = None →
  combined_score paper
  = combined_score
      (<["external_validation" := VDict {["validation_score" := VInt 0]}]> paper).
Proof.
  intros Hnone. unfold combined_score.
  rewrite (dict_get_default_None paper "external_validation") by done.
  rewrite dict_get_default_insert, dict_get_default_insert_ne by done.
  reflexivity.
Qed.

(** *** Printing computations that return *)

Lemma returns_ret {A} (a : A) : returns (mret a) a.
Proof. by exists []. Qed.

Lemma returns_lift {A} (a : A) : returns (lift (Ok a)) a.
Proof. by exists []. Qed.

Lemma returns_print e : returns (print e) tt.
Proof. by exists [e]. Qed.

Lemma returns_bind {A B} (m : io A) (f : A → io B) a b :
  returns m a → returns (f a) b → returns (m ≫= f) b.
Proof.
  intros [out ->] [out' Hf]. exists (out ++ out')%list. simpl. by rewrite Hf.
Qed.

Lemma report_candidate_returns i paper :
  title_ok paper = true → trending_ok paper = true →
  returns (report_candidate i (validated paper)) tt.
Proof.
  unfold title_ok, trending_ok. intros Ht Hok.
  unfold report_candidate, dict_item.
  rewrite validated_get, validated_get_ne, validated_lookup_ne by done.
  cbn [py_get]. rewrite validation_of_score.
  destruct (paper !! "title") as [[| | |t| |]|]; try discriminate.
  destruct (paper !! "trending_analysis") as [[| | | | |d]|] eqn:Hta;
    try discriminate.
  - rewrite (dict_get_default_Some _ _ _ _ Hta). cbn [py_get].
    apply andb_true_iff in Hok as [Htot Hstars].
    unfold int_valued in *.
    destruct (as_int (dict_get_default d "total_score" (VInt 0))) eqn:E1; [|done].
    destruct (as_int (dict_get_default d "github_stars" (VInt 0))) eqn:E2; [|done].
    do 3 (simpl; unfold py_add_int, py_floordiv10; rewrite ?E1, ?E2).
    simpl. eexists. reflexivity.
  - rewrite (dict_get_default_None _ _ _ Hta). eexists. reflexivity.
Qed.

Lemma report_top_returns i papers :
  Forall (λ p, title_ok p = true ∧ trending_ok p = true) papers →
  returns (report_top i (map validated papers)) tt.
Proof.
  intros H. revert i. induction H as [|p papers [Ht Hok] _ IH]; intros i; simpl.
  - apply returns_ret.
  - eapply returns_bind; [by apply report_candidate_returns|]. apply IH.
Qed.

(** [pick_best] returns the head of the sorted sequence. *)
Lemma pick_best_selects papers :
  papers ≠ [] →
  Forall (λ p, selectable p = true) papers →
  ∃ best rest,
    sorted_desc_by combined_total papers = best :: rest ∧
    returns (pick_best papers) (validated best).
Proof.
  intros Hne Hsel.
  assert (Forall (λ p, url_ok p = true ∧ conference_ok p = true) papers) as Hval.
  { eapply Forall_impl; [exact Hsel|]. intros p Hp.
    by apply selectable_inv in Hp as (_ & ? & ? & _). }
  assert (Forall (λ p, trending_ok p = true) papers) as Htr.
  { eapply Forall_impl; [exact Hsel|]. intros p Hp.
    by apply selectable_inv in Hp as (_ & _ & _ & ?). }
  assert (Forall (λ p, title_ok p = true ∧ trending_ok p = true) papers) as Hrep.
  { eapply Forall_impl; [exact Hsel|]. intros p Hp.
    by apply selectable_inv in Hp as (? & _ & _ & ?). }
  pose proof (sorted_desc_by_perm combined_total papers) as Hperm.
  destruct (sorted_desc_by combined_total papers) as [|best rest] eqn:Hsorted.
  { apply Permutation_nil_l in Hperm. congruence. }
  exists best, rest. split; [done|].
  unfold pick_best. destruct papers as [|p0 papers0]; [done|].
  eapply returns_bind; [apply returns_print|].
  rewrite add_validation_typed by done.
  eapply returns_bind; [apply returns_lift|].
  rewrite sorted_by_combined_score_validated, Hsorted by done.
  eapply returns_bind; [apply returns_lift|].
  eapply returns_bind; [apply returns_print|].
  eapply returns_bind; [|apply returns_ret].
  rewrite <- fmap_take. apply report_top_returns.
  apply Forall_take. by rewrite Hperm.
Qed.

(** ** The candidate-set reduction and the enrichment loops *)

Lemma recent_only_returns papers :
  Forall (λ p, ∃ b, is_recent_paper p = Ok b) papers →
  recent_only papers = Ok (List.filter is_recent papers).
Proof.
  induction 1 as [|p papers [b Hb] _ IH]; simpl; [done|].
  unfold is_recent at 1. rewrite Hb. simpl.
  rewrite IH. simpl. by destruct b.
Qed.

Lemma io_bind_Ok_inv {A B} (m : io A) (f : A → io B) out b :
  m ≫= f = (out, Ok b) →
  ∃ out1 a out2, m = (out1, Ok a) ∧ f a = (out2, Ok b) ∧ out = (out1 ++ out2)%list.
Proof.
  destruct m as [out1 [a|e]]; simpl; [|discriminate].
  destruct (f a) as [out2 r] eqn:Hf. intros [= <- ->].
  by exists out1, a, out2.
Qed.

Lemma lift_Ok_inv {A} (r : result A) out a :
  lift r = (out, Ok a) → r = Ok a.
Proof. unfold lift. by intros [= _ ->]. Qed.

Lemma recent_only_subset papers recent :
  recent_only papers = Ok recent → recent ⊆ papers.
Proof.
  revert recent. induction papers as [|p papers IH]; simpl; intros recent H.
  - by injection H as <-.
  - apply bind_Ok_inv in H as (b & _ & H).
    apply bind_Ok_inv in H as (rest & Hrest & H).
    injection H as Heq. subst recent. specialize (IH rest Hrest).
    intros x Hx. apply elem_of_cons.
    destruct b; [apply elem_of_cons in Hx as [->|Hx]|]; auto.
Qed.

Lemma reduce_candidates_subset all_papers out candidates :
  reduce_candidates all_papers = (out, Ok candidates) → candidates ⊆ all_papers.
Proof.
  unfold reduce_candidates. intros H.
  apply io_bind_Ok_inv in H as (? & recent & ? & Hr & H & _).
  apply lift_Ok_inv in Hr. apply recent_only_subset in Hr.
  apply io_bind_Ok_inv in H as (? & [] & ? & _ & H & _).
  destruct recent as [|p recent].
  - apply io_bind_Ok_inv in H as (? & [] & ? & _ & H & _).
    injection H as _ <-. apply subseteq_take.
  - by injection H as _ <-.
Qed.

Lemma enrich_trending_inserts clock i papers scored :
  enrich_trending clock i papers = Ok scored →
  Forall2 (λ p q, ∃ sb, q = <["trending_analysis" := VDict sb]> p) papers scored.
Proof.
  revert i scored. induction papers as [|p papers IH]; simpl; intros i scored H.
  - injection H as <-. constructor.
  - apply bind_Ok_inv in H as (sb & _ & H).
    apply bind_Ok_inv in H as (rest & Hrest & H).
    injection H as <-. constructor; eauto.
Qed.

Lemma add_validation_inserts papers res :
  add_validation papers = Ok res →
  Forall2 (λ p q, ∃ v, q = <["external_validation" := VDict v]> p) papers res.
Proof.
  revert res. induction papers as [|p papers IH]; simpl; intros res H.
  - injection H as <-. constructor.
  - apply bind_Ok_inv in H as (v & _ & H).
    apply bind_Ok_inv in H as (rest & Hrest & H).
    injection H as <-. constructor; eauto.
Qed.

Lemma keyed_snd papers ks : keyed papers = Ok ks → map snd ks = papers.
Proof.
  revert ks. induction papers as [|p papers IH]; simpl; intros ks H.
  - by injection H as <-.
  - apply bind_Ok_inv in H as (k & _ & H).
    apply bind_Ok_inv in H as (rest & Hrest & H).
    injection H as <-. simpl. by rewrite (IH rest).
Qed.

Lemma sorted_by_combined_score_perm papers sorted_papers :
  sorted_by_combined_score papers = Ok sorted_papers → sorted_papers ≡ₚ papers.
Proof.
  unfold sorted_by_combined_score. intros H.
  apply bind_Ok_inv in H as (ks & Hks & H). injection H as <-.
  rewrite sort_desc_perm. by rewrite (keyed_snd papers ks).
Qed.

(** Whatever [pick_best] returns for a non-empty list is one of the
    records it has just validated. *)
Lemma pick_best_result papers out best :
  papers ≠ [] →
  pick_best papers = (out, Ok best) →
  ∃ res, add_validation papers = Ok res ∧ best ∈ res.
Proof.
  intros Hne H. unfold pick_best in H. destruct papers as [|p0 papers0]; [done|].
  apply io_bind_Ok_inv in H as (? & [] & ? & _ & H & _).
  apply io_bind_Ok_inv in H as (? & res & ? & Hres & H & _).
  apply lift_Ok_inv in Hres.
  apply io_bind_Ok_inv in H as (? & sorted_papers & ? & Hs & H & _).
  apply lift_Ok_inv in Hs. apply sorted_by_combined_score_perm in Hs.
  apply io_bind_Ok_inv in H as (? & [] & ? & _ & H & _).
  apply io_bind_Ok_inv in H as (? & [] & ? & _ & H & _).
  destruct sorted_papers as [|b rest]; [discriminate|].
  injection H as _ <-. exists res. split; [done|].
  rewrite <- Hs. apply list_elem_of_here.
Qed.

(** ** From the response to the selection, on typed records *)

Lemma paper_record_inv paper :
  paper_record paper = true →
  title_ok paper = true ∧ url_ok paper = true ∧ published_ok paper = true ∧
  conference_ok paper = true ∧ stars_ok paper = true.
Proof.
  unfold paper_record. intros H.
  repeat (apply andb_true_iff in H as [H ?]). done.
Qed.

(** A scored record is fit for the selector. *)
Lemma scored_selectable now paper sb :
  paper_record paper = true →
  calculate_trending_score now paper = Ok sb →
  selectable (<["trending_analysis" := VDict sb]> paper) = true.
Proof.
  intros Hrec Hsb.
  apply paper_record_inv in Hrec as (Ht & Hu & _ & Hc & _).
  apply calculate_trending_score_inv in Hsb as (g & r & c & _ & _ & _ & ->).
  unfold selectable, title_ok, url_ok, conference_ok, trending_ok in *.
  rewrite lookup_insert_eq, !lookup_insert_ne by done.
  rewrite Ht, Hu, Hc. reflexivity.
Qed.

Lemma enrich_trending_typed clock i papers :
  Forall (λ p, paper_record p = true) papers →
  ∃ scored, enrich_trending clock i papers = Ok scored ∧
            Forall (λ q, selectable q = true) scored.
Proof.
  intros H. revert i. induction H as [|p papers Hp _ IH]; intros i; simpl.
  - by exists [].
  - destruct (paper_record_inv p Hp) as (_ & _ & Hpub & Hconf & Hstars).
    destruct (calculate_trending_score_total (clock i) p Hstars Hpub Hconf)
      as (g & r & c & Hsb & _).
    destruct (IH (S i)) as (rest & Hrest & Hsel).
    rewrite Hsb, Hrest. simpl. eexists. split; [done|].
    constructor; [|done]. by eapply scored_selectable.
Qed.

Lemma reduce_candidates_returns all_papers :
  Forall (λ p, ∃ b, is_recent_paper p = Ok b) all_papers →
  ∃ out candidates,
    reduce_candidates all_papers = (out, Ok candidates) ∧
    candidates ⊆ all_papers.
Proof.
  intros Hok.
  assert (∃ out candidates, reduce_candidates all_papers = (out, Ok candidates))
    as (out & candidates & Hred).
  { unfold reduce_candidates. rewrite (recent_only_returns all_papers Hok).
    destruct (List.filter is_recent all_papers); by do 2 eexists. }
  exists out, candidates. split; [done|]. by eapply reduce_candidates_subset.
Qed.

(** On a typed response [fetch_trending] returns, and what it returns
    is fit for [pick_best]. *)
Lemma fetch_trending_typed clock all_papers :
  Forall (λ p, paper_record p = true) all_papers →
  ∃ out candidates,
    fetch_trending clock all_papers = (out, Ok candidates) ∧
    Forall (λ q, selectable q = true) candidates.
Proof.
  intros Hrec.
  destruct (reduce_candidates_returns all_papers) as (out & reduced & Hred & Hsub).
  { eapply Forall_impl; [exact Hrec|]. intros p Hp.
    apply is_recent_paper_total. by apply paper_record_inv in Hp as (_ & _ & ? & _). }
  destruct (enrich_trending_typed clock 0 reduced) as (scored & Hscored & Hsel).
  { apply Forall_forall. intros p Hp. rewrite Forall_forall in Hrec. auto. }
  unfold fetch_trending. simpl. rewrite Hred. simpl. rewrite Hscored.
  by do 2 eexists.
Qed.

(** * Part IV: the claims *)

(** C1 (code defect). The claim: a conference field that contains, letter
    case ignored, a venue of the allow-list earns the prestige component
    20, in particular ["neurips 2025"]. The scorer upper-cases the field
    but compares it with the mixed-case literal ["NeurIPS"], which no
    upper-cased text contains: on the record whose conference is
    ["neurips 2025"] the scorer returns a breakdown whose prestige
    component is 0, at every reading of the clock. *)
Theorem prestige_neurips_scores_zero (now : datetime) :
  ∃ sb,
    calculate_trending_score now
      (<["conference" := VStr "neurips 2025"]> (paper_titled "A paper")) = Ok sb ∧
    sb !! "conference_bonus" = Some (VInt 0).
Proof. eexists. split; [vm_compute; reflexivity|reflexivity]. Qed.

(** C2 (code defect). The claim: a time-zone-bearing timestamp at most
    seven days old earns the recency component 50, like a plain date.
    With the clock at noon on 15 June 2025, the timestamp
    ["2025-06-14T10:30:00Z"] parses to an aware datetime one day old, and
    the scorer returns the recency component 0, whereas the plain date
    ["2025-06-14"] earns 50. *)
Theorem recency_timestamp_scores_zero :
  (∃ dt, parse_published (VStr "2025-06-14T10:30:00Z") = Ok dt ∧
         tzinfo dt = Some 0 ∧ toordinal noon_15_june - toordinal dt = 1) ∧
  (∃ sb, calculate_trending_score noon_15_june
           (<["published" := VStr "2025-06-14T10:30:00Z"]> (paper_titled "A paper")) = Ok sb ∧
         sb !! "recency_bonus" = Some (VInt 0)) ∧
  (∃ sb, calculate_trending_score noon_15_june
           (<["published" := VStr "2025-06-14"]> (paper_titled "A paper")) = Ok sb ∧
         sb !! "recency_bonus" = Some (VInt 50)).
Proof.
  split; [|split].
  - eexists. split; [vm_compute; reflexivity|]. split; reflexivity.
  - eexists. split; [vm_compute; reflexivity|reflexivity].
  - eexists. split; [vm_compute; reflexivity|reflexivity].
Qed.

(** C3. For a record whose [published] field is a parseable plain
    calendar date, the recency component of every breakdown the scorer
    returns is fixed by the age in whole days between the date and the
    reading of the clock: 50 up to 7 days (negative ages included), 25 up
    to 30, 10 up to 90, and 0 beyond; so age 7 gives 50, 8 gives 25, 30
    gives 25, 31 gives 10, 90 gives 10 and 91 gives 0. The scorer does
    return a breakdown when the star count and the conference are typed. *)
Theorem recency_bonus_by_age now paper s dt :
  is_naive_datetime now = true →
  paper !! "published" = Some (VStr s) →
  str_in "T" s = false →
  strptime_ymd s = Ok dt →
  let age := toordinal now - toordinal dt in
  ∃ bonus,
    (∀ sb, calculate_trending_score now paper = Ok sb →
           sb !! "recency_bonus" = Some (VInt bonus)) ∧
    (stars_ok paper = true → conference_ok paper = true →
     ∃ sb, calculate_trending_score now paper = Ok sb) ∧
    (age ≤ 7 → bonus = 50) ∧
    (7 < age ≤ 30 → bonus = 25) ∧
    (30 < age ≤ 90 → bonus = 10) ∧
    (90 < age → bonus = 0) ∧
    (age < 0 → bonus = 50) ∧ (age = 7 → bonus = 50) ∧ (age = 8 → bonus = 25) ∧
    (age = 30 → bonus = 25) ∧ (age = 31 → bonus = 10) ∧
    (age = 90 → bonus = 10) ∧ (age = 91 → bonus = 0).
Proof.
  intros Hnow Hp HT Hparse age.
  destruct (strptime_ymd_midnight s dt Hparse) as (Hh & Hm & Hs & Hu & Htz & _).
  assert (recency_component now paper = Ok (recency_tier age)) as Hr.
  { rewrite (recency_component_parsed now paper s dt Hp).
    - by rewrite sub_days_midnight.
    - by rewrite parse_published_text, HT. }
  exists (recency_tier age). split; [|split].
  - intros sb Hsb.
    apply calculate_trending_score_inv in Hsb as (g & r & c & _ & Hr' & _ & ->).
    rewrite Hr in Hr'. injection Hr' as <-.
    by rewrite !lookup_insert_ne, lookup_insert_eq by done.
  - intros Hstars Hconf.
    destruct (github_component_typed paper Hstars) as (n & Hg & _).
    destruct (conference_component_typed paper Hconf) as (c & Hc & _).
    eexists. by apply calculate_trending_score_fields.
  - unfold recency_tier. repeat case_match; lia.
Qed.

Lemma recency_bonus_by_age_witness :
  let now := noon_15_june in
  let paper := <["published" := VStr "2025-06-08"]> (paper_titled "A paper") in
  toordinal now - toordinal (mkDatetime 2025 6 8 0 0 0 0 None) = 7 ∧
  ∃ sb,
    calculate_trending_score now paper = Ok sb ∧
    sb !! "recency_bonus" = Some (VInt 50).
Proof.
  split; [reflexivity|].
  destruct (recency_bonus_by_age noon_15_june
              (<["published" := VStr "2025-06-08"]> (paper_titled "A paper"))
              "2025-06-08" (mkDatetime 2025 6 8 0 0 0 0 None))
    as (bonus & Hall & Hret & H7 & _); try reflexivity.
  destruct Hret as [sb Hsb]; try reflexivity.
  exists sb. split; [exact Hsb|].
  rewrite (Hall sb Hsb). rewrite H7; [reflexivity|].
  vm_compute. discriminate.
Defined.

(** C4 (code defect). The claim: an absent, malformed or otherwise-shaped
    [published] value, non-string values included, yields false without
    raising. The filter catches only [ValueError] and [TypeError]: on a
    [published] value that is a list with the member ["T"], the test
    ["T" in published_date] succeeds and the call of [replace] raises
    [AttributeError], which leaves the function. *)
Theorem is_recent_paper_raises_on_list :
  is_recent_paper
    (<["published" := VList [VStr "T"]]> (paper_titled "A paper"))
  = Raise AttributeError.
Proof. reflexivity. Qed.

(** C5. On a non-empty list of typed records, [pick_best] validates every
    record, sorts the validated records in descending order of combined
    score (score total plus validation total) and returns the first of
    the sorted sequence. The sorted sequence is a rearrangement of the
    input, records with equal combined scores keep their original
    relative order, and the record returned has a maximal combined score;
    among the records with that score it is the first of the input. *)
Theorem pick_best_sorts_stably papers :
  papers ≠ [] →
  Forall (λ p, selectable p = true) papers →
  ∃ out best rest,
    let sorted_papers := best :: rest in
    add_validation papers = Ok (map validated papers) ∧
    Forall (λ p, combined_score (validated p) = Ok (combined_total p)) papers ∧
    sorted_by_combined_score (map validated papers)
      = Ok (map validated sorted_papers) ∧
    pick_best papers = (out, Ok (validated best)) ∧
    sorted_papers ≡ₚ papers ∧
    StronglySorted (λ p q, combined_total q ≤ combined_total p) sorted_papers ∧
    (∀ v, filter (λ p, combined_total p = v) sorted_papers
          = filter (λ p, combined_total p = v) papers) ∧
    Forall (λ p, combined_total p ≤ combined_total best) papers ∧
    head (filter (λ p, combined_total p = combined_total best) papers) = Some best.
Proof.
  intros Hne Hsel.
  destruct (pick_best_selects papers Hne Hsel) as (best & rest & Hsorted & out & Hpick).
  assert (Forall (λ p, trending_ok p = true) papers) as Htr.
  { eapply Forall_impl; [exact Hsel|]. intros p Hp.
    by apply selectable_inv in Hp as (_ & _ & _ & ?). }
  exists out, best, rest. cbv zeta. repeat split.
  - apply add_validation_typed.
    eapply Forall_impl; [exact Hsel|]. intros p Hp.
    by apply selectable_inv in Hp as (_ & ? & ? & _).
  - eapply Forall_impl; [exact Htr|]. intros p Hp.
    by apply combined_score_validated.
  - rewrite <- Hsorted. by apply sorted_by_combined_score_validated.
  - exact Hpick.
  - rewrite <- Hsorted. apply sorted_desc_by_perm.
  - rewrite <- Hsorted. apply sorted_desc_by_sorted.
  - intros v. rewrite <- Hsorted. apply sorted_desc_by_stable.
  - by apply (sorted_desc_by_head combined_total papers best rest).
  - by apply (sorted_desc_by_head combined_total papers best rest).
Qed.

Lemma pick_best_sorts_stably_witness :
  ∃ out best rest,
    pick_best three_papers = (out, Ok (validated best)) ∧
    best :: rest ≡ₚ three_papers ∧
    head (filter (λ p, combined_total p = combined_total best) three_papers)
      = Some best.
Proof.
  destruct (pick_best_sorts_stably three_papers)
    as (out & best & rest & _ & _ & _ & Hpick & Hperm & _ & _ & _ & Hhead).
  - discriminate.
  - repeat constructor.
  - exists out, best, rest. split; [exact Hpick|]. split; [exact Hperm|exact Hhead].
Defined.

Example pick_best_tie_keeps_first :
  snd (pick_best three_papers) = Ok (validated (<["github_stars" := VInt 4]> (paper_titled "second"))).
Proof. vm_compute. reflexivity. Qed.

(** C6. On a list of records on each of which the recency filter
    returns, the candidate-set reduction returns the records that pass
    the filter, in their original order, when there is at least one; when
    there is none it returns the first ten records of the unfiltered
    list, in their original order, and prints the fallback warning, which
    it prints in no other case. *)
Theorem reduction_falls_back_to_first_ten all_papers :
  Forall (λ p, ∃ b, is_recent_paper p = Ok b) all_papers →
  let recent := List.filter is_recent all_papers in
  (recent = [] →
     reduce_candidates all_papers
     = ([MsgFiltered 0; MsgFallback], Ok (take 10 all_papers))) ∧
  (recent ≠ [] →
     reduce_candidates all_papers = ([MsgFiltered (length recent)], Ok recent)).
Proof.
  intros Hok recent. unfold reduce_candidates.
  rewrite (recent_only_returns all_papers Hok). fold recent.
  split; intros Hr.
  - rewrite Hr. reflexivity.
  - destruct recent as [|p rest]; [done|]. reflexivity.
Qed.

Lemma reduction_falls_back_to_first_ten_witness :
  List.filter is_recent twelve_old_papers = [] ∧
  reduce_candidates twelve_old_papers
  = ([MsgFiltered 0; MsgFallback],
     Ok (map old_paper [1; 2; 3; 4; 5; 6; 7; 8; 9; 10])).
Proof.
  split; [vm_compute; reflexivity|].
  apply (reduction_falls_back_to_first_ten twelve_old_papers).
  - repeat (constructor; [exists false; vm_compute; reflexivity|]). constructor.
  - vm_compute. reflexivity.
Defined.

(** C7. On a record whose URL is absent or text and whose conference is
    absent, null or text, the external validator returns a breakdown
    whose validation total is the sum of three bonuses: 10 when the URL
    contains the marker ["arxiv.org"] (the URL is then recorded, and
    otherwise the slot is null), 15 when [github_stars] is present and
    truthy, 5 when the conference is present and not blank; the total
    lies between 0 and 30. *)
Theorem validation_total_is_sum_of_bonuses paper :
  url_ok paper = true → conference_ok paper = true →
  ∃ v total,
    validate_external_trending paper = Ok v ∧
    v !! "validation_score" = Some (VInt total) ∧
    total = (match preprint_url paper with Some _ => 10 | None => 0 end)
          + (if has_nonzero_stars paper then 15 else 0)
          + (if has_venue paper then 5 else 0) ∧
    v !! "arxiv_url" = Some (match preprint_url paper with
                             | Some u => VStr u
                             | None => VNone
                             end) ∧
    v !! "has_code" = Some (VBool (has_nonzero_stars paper)) ∧
    0 ≤ total ≤ 30.
Proof.
  intros Hu Hc. exists (validation_of paper), (validation_total paper).
  split; [by apply validate_external_trending_typed|].
  unfold validation_of.
  split; [by rewrite lookup_insert_eq|].
  split; [reflexivity|].
  split; [by rewrite !lookup_insert_ne, lookup_insert_eq by done|].
  split; [by rewrite lookup_insert_ne, lookup_insert_eq by done|].
  apply validation_total_bounds.
Qed.

Lemma validation_total_is_sum_of_bonuses_witness :
  ∃ v total,
    validate_external_trending full_paper = Ok v ∧
    v !! "validation_score" = Some (VInt total) ∧
    total = 30.
Proof.
  destruct (validation_total_is_sum_of_bonuses full_paper)
    as (v & total & Hv & Hs & Ht & _); try reflexivity.
  exists v, total. split; [exact Hv|]. split; [exact Hs|].
  rewrite Ht. vm_compute. reflexivity.
Defined.

(** C8. On the empty list [pick_best] returns the empty record, raises
    nothing and prints nothing, so no top-3 report either. *)
Theorem pick_best_empty : pick_best [] = ([], Ok ∅).
Proof. reflexivity. Qed.

(** C9. The two enrichment loops only add keys. Every record
    [fetch_trending] returns is a record of the decoded response with the
    key ['trending_analysis'] set and every other key as it was; every
    record the validation loop of [pick_best] produces is its input
    record with the key ['external_validation'] set and every other key
    as it was; and the record [pick_best] returns for the candidates of
    [fetch_trending] agrees with a record of the response on every key
    but those two, and has all the keys that record has. *)
Theorem enrichment_only_adds_keys clock all_papers out1 candidates out2 best :
  fetch_trending clock all_papers = (out1, Ok candidates) →
  candidates ≠ [] →
  pick_best candidates = (out2, Ok best) →
  Forall (λ q, ∃ p, p ∈ all_papers ∧
               is_Some (q !! "trending_analysis") ∧
               ∀ k, k ≠ "trending_analysis" → q !! k = p !! k) candidates ∧
  (∃ validated_papers,
     add_validation candidates = Ok validated_papers ∧
     best ∈ validated_papers ∧
     Forall2 (λ q r, is_Some (r !! "external_validation") ∧
                     ∀ k, k ≠ "external_validation" → r !! k = q !! k)
             candidates validated_papers) ∧
  (∃ p, p ∈ all_papers ∧
        (∀ k, k ≠ "trending_analysis" → k ≠ "external_validation" →
              best !! k = p !! k) ∧
        dom p ⊆ dom best).
Proof.
  intros Hfetch Hne Hpick.
  (* the trending loop *)
  unfold fetch_trending in Hfetch.
  apply io_bind_Ok_inv in Hfetch as (? & [] & ? & _ & Hfetch & _).
  apply io_bind_Ok_inv in Hfetch as (? & [] & ? & _ & Hfetch & _).
  apply io_bind_Ok_inv in Hfetch as (? & reduced & ? & Hred & Hfetch & _).
  apply lift_Ok_inv in Hfetch.
  apply reduce_candidates_subset in Hred.
  apply enrich_trending_inserts in Hfetch.
  assert (Forall (λ q, ∃ p, p ∈ all_papers ∧
                       is_Some (q !! "trending_analysis") ∧
                       ∀ k, k ≠ "trending_analysis" → q !! k = p !! k) candidates)
    as Hcands.
  { apply Forall_forall. intros q Hq.
    apply list_elem_of_lookup in Hq as [i Hq].
    destruct (Forall2_lookup_r _ _ _ _ _ Hfetch Hq) as (p & Hp & sb & ->).
    exists p. split; [apply Hred; by eapply list_elem_of_lookup_2|].
    split; [by rewrite lookup_insert_eq|].
    intros k Hk. by rewrite lookup_insert_ne. }
  (* the validation loop *)
  destruct (pick_best_result candidates out2 best Hne Hpick) as (res & Hres & Hbest).
  pose proof (add_validation_inserts candidates res Hres) as Hins.
  split; [exact Hcands|]. split.
  - exists res. split; [done|]. split; [done|].
    eapply Forall2_impl; [exact Hins|]. intros q r [v ->].
    split; [by rewrite lookup_insert_eq|].
    intros k Hk. by rewrite lookup_insert_ne.
  - apply list_elem_of_lookup in Hbest as [i Hbest].
    destruct (Forall2_lookup_r _ _ _ _ _ Hins Hbest) as (q & Hq & v & ->).
    apply list_elem_of_lookup_2 in Hq.
    rewrite Forall_forall in Hcands.
    destruct (Hcands q Hq) as (p & Hp & _ & Hframe).
    exists p. split; [done|]. split.
    + intros k Hk1 Hk2. rewrite lookup_insert_ne by done. by apply Hframe.
    + intros k Hk. apply elem_of_dom in Hk as [val Hval]. apply elem_of_dom.
      destruct (decide (k = "external_validation")) as [->|Hk2];
        [by rewrite lookup_insert_eq|].
      rewrite lookup_insert_ne by done.
      destruct (decide (k = "trending_analysis")) as [->|Hk1].
      * by destruct (Hcands q Hq) as (_ & _ & ? & _).
      * rewrite (Hframe k Hk1). by rewrite Hval.
Qed.

Lemma enrichment_only_adds_keys_witness :
  ∃ p, p ∈ response_papers ∧
       (∀ k, k ≠ "trending_analysis" → k ≠ "external_validation" →
             response_best !! k = p !! k) ∧
       dom p ⊆ dom response_best.
Proof.
  destruct (enrichment_only_adds_keys (λ _, noon_15_june) response_papers
              (fst (fetch_trending (λ _, noon_15_june) response_papers))
              response_candidates
              (fst (pick_best response_candidates))
              response_best) as (_ & _ & H).
  - vm_compute. reflexivity.
  - vm_compute. discriminate.
  - vm_compute. reflexivity.
  - exact H.
Defined.

Example response_best_keeps_abstract :
  response_best !! "abstract" = Some (VStr "We study.") ∧
  response_best !! "title" = Some (VStr "Newer") ∧
  response_best !! "published" = Some (VStr "2025-06-10").
Proof. repeat split; vm_compute; reflexivity. Qed.

(** C10. On a non-empty list of typed records with a title, scored or
    not, [pick_best] returns one of the records it has validated. It does
    not score a record that lacks ['trending_analysis']: the key stays
    absent, and the record is ranked by its validation total alone, as if
    it carried a score total of 0. The sort key likewise reads a missing
    ['external_validation'] as a validation total of 0. *)
Theorem pick_best_total_on_unscored papers :
  papers ≠ [] →
  Forall (λ p, selectable p = true) papers →
  (∃ out p, p ∈ papers ∧ pick_best papers = (out, Ok (validated p))) ∧
  Forall (λ p, p !! "trending_analysis" = None →
               validated p !! "trending_analysis" = None ∧
               combined_score (validated p) = Ok (0 + validation_total p) ∧
               combined_score (validated p)
               = combined_score
                   (<["trending_analysis" := VDict {["total_score" := VInt 0]}]>
                      (validated p))) papers ∧
  (∀ p, p !! "external_validation" = None →
        combined_score p
        = combined_score
            (<["external_validation" := VDict {["validation_score" := VInt 0]}]> p)).
Proof.
  intros Hne Hsel.
  destruct (pick_best_selects papers Hne Hsel) as (best & rest & Hsorted & out & Hpick).
  split; [|split].
  - exists out, best. split; [|done].
    by apply (sorted_desc_by_head combined_total papers best rest).
  - apply Forall_forall. intros p Hp Hnone.
    rewrite Forall_forall in Hsel.
    destruct (selectable_inv p (Hsel p Hp)) as (_ & _ & _ & Htr).
    split; [by rewrite validated_lookup_ne|].
    split.
    + rewrite combined_score_validated by done.
      unfold combined_total, trending_total. by rewrite Hnone.
    + apply combined_score_missing_trending. by rewrite validated_lookup_ne.
  - apply combined_score_missing_validation.
Qed.

Lemma pick_best_total_on_unscored_witness :
  Forall (λ p, p !! "trending_analysis" = None) three_papers ∧
  ∃ out p, p ∈ three_papers ∧ pick_best three_papers = (out, Ok (validated p)).
Proof.
  split; [repeat constructor|].
  apply (pick_best_total_on_unscored three_papers).
  - discriminate.
  - repeat constructor.
Defined.

(** * Part V: worked examples *)

Example ranking_example_scores :
  map (λ p, combined_score (validated p)) ranked_candidates = [Ok 1100; Ok 5015].
Proof. vm_compute. reflexivity. Qed.

Example ranking_example_selects_B :
  (snd (pick_best ranked_candidates)) ≫= (λ best, Ok (best !! "title"))
  = Ok (Some (VStr "Paper B")).
Proof. vm_compute. reflexivity. Qed.

(** Popularity: 37 stars give 370, no stars give 0. *)
Example popularity_37_stars :
  github_component (<["github_stars" := VInt 37]> (paper_titled "A paper")) = Ok (VInt 370) ∧
  github_component (paper_titled "A paper") = Ok (VInt 0).
Proof. split; reflexivity. Qed.

(** A venue off the allow-list: no prestige, but the venue bonus. *)
Example workshop_venue :
  conference_component (<["conference" := VStr "Workshop on Foo"]> (paper_titled "A paper")) = Ok 0 ∧
  venue_bonus (<["conference" := VStr "Workshop on Foo"]> (paper_titled "A paper")) = 5.
Proof. split; reflexivity. Qed.

(** An all-caps venue of the allow-list matches in any letter case. *)
Example prestige_icml_lowercase :
  conference_component (<["conference" := VStr "icml 2025"]> (paper_titled "A paper")) = Ok 20.
Proof. reflexivity. Qed.

(** Outside the typing of the data model the code raises: a null URL in
    the validator, a numeric conference in both scorers, a null title in
    the report of the selector. *)
Example validate_null_url :
  validate_external_trending (<["url_abs" := VNone]> (paper_titled "A paper"))
  = Raise TypeError.
Proof. reflexivity. Qed.

Example numeric_conference :
  conference_component (<["conference" := VInt 7]> (paper_titled "A paper"))
  = Raise AttributeError.
Proof. reflexivity. Qed.

Example pick_best_null_title :
  pick_best [ {["title" := VNone]} ] = ([MsgAnalyzing; MsgTopCandidates], Raise TypeError).
Proof. vm_compute. reflexivity. Qed.

(** * Part VI: further properties of the code *)

(** ** The scorer *)





(** X2. The popularity component of every breakdown the scorer returns
    is ten times the star count; a negative count is not clamped, and an
    absent, null or zero count gives 0. *)
Theorem popularity_is_ten_per_star now paper sb :
  calculate_trending_score now paper = Ok sb →
  sb !! "github_stars" = Some (VInt (10 * star_count paper)).
Proof.
  intros Hsb.
  apply calculate_trending_score_inv in Hsb as (g & r & c & Hg & _ & _ & ->).
  rewrite !lookup_insert_ne, lookup_insert_eq by done. do 2 f_equal.
  unfold github_component, dict_get_default, py_or, star_count in *.
  destruct (paper !! "github_stars") as [[|b|n|s|l|d]|]; simpl in *.
  - by injection Hg as <-.
  - destruct b; simpl in Hg; by injection Hg as <-.
  - destruct (n =? 0) eqn:Hn; simpl in Hg; injection Hg as <-; [|lia].
    apply Z.eqb_eq in Hn. lia.
  - destruct (negb (s =? "")%string); simpl in Hg; [discriminate|by injection Hg as <-].
  - destruct l; simpl in Hg; [by injection Hg as <-|discriminate].
  - destruct (negb (bool_decide (d = ∅))); simpl in Hg;
      [discriminate|by injection Hg as <-].
  - by injection Hg as <-.
Qed.

Lemma popularity_is_ten_per_star_witness :
  ∃ sb, calculate_trending_score noon_15_june
          (<["github_stars" := VInt (-3)]> (paper_titled "A paper")) = Ok sb ∧
        sb !! "github_stars" = Some (VInt (-30)).
Proof.
  destruct (calculate_trending_score noon_15_june
              (<["github_stars" := VInt (-3)]> (paper_titled "A paper")))
    as [sb|e] eqn:Hsb; [|vm_compute in Hsb; discriminate].
  exists sb. split; [reflexivity|].
  rewrite (popularity_is_ten_per_star _ _ _ Hsb). vm_compute. reflexivity.
Defined.

(** ** The recency filter and the recency component *)





(** X5. The filter raises on exactly one kind of record: those whose
    [published] value is a list with the member ["T"] or a dict with the
    key ["T"], and there the exception is [AttributeError]. On every
    other record it returns. *)
Theorem is_recent_paper_raises_iff paper e :
  is_recent_paper paper = Raise e ↔
  e = AttributeError ∧ holds_T (dict_get paper "published") = true.
Proof.
  pose proof (is_recent_paper_outcome paper) as H.
  destruct (holds_T (dict_get paper "published")).
  - rewrite H. split; [by intros [= <-]|by intros [-> _]].
  - destruct H as [b ->]. split; [discriminate|by intros [_ [=]]].
Qed.

(** X6. The scorer raises [AttributeError] on the records the filter
    raises on: a [published] value that is a list with the member ["T"]
    or a dict with the key ["T"], the star count being typed. *)
Theorem scorer_raises_on_T_container now paper :
  holds_T (dict_get paper "published") = true →
  stars_ok paper = true →
  calculate_trending_score now paper = Raise AttributeError.
Proof.
  intros HT Hstars.
  destruct (github_component_typed paper Hstars) as (n & Hg & _).
  unfold calculate_trending_score. rewrite Hg. simpl.
  assert (recency_component now paper = Raise AttributeError) as ->; [|done].
  unfold recency_component, dict_item, dict_get in *.
  destruct (paper !! "published") as [[|b|k|s|l|d]|]; try discriminate; simpl in HT.
  - destruct l as [|x l]; [discriminate|].
    cbn [default from_option id truthy]. unfold parse_published.
    cbn [py_contains mbind result_bind]. rewrite HT. reflexivity.
  - cbn [default from_option id truthy].
    assert (bool_decide (d = ∅) = false) as ->.
    { apply bool_decide_eq_false. intros ->.
      apply bool_decide_eq_true in HT. rewrite lookup_empty in HT.
      by destruct HT. }
    unfold parse_published. cbn [negb py_contains mbind result_bind].
    rewrite HT. reflexivity.
Qed.

Lemma scorer_raises_on_T_container_witness :
  calculate_trending_score noon_15_june
    (<["published" := VList [VInt 1; VStr "T"]]> (paper_titled "A paper"))
  = Raise AttributeError.
Proof.
  apply scorer_raises_on_T_container; reflexivity.
Defined.

(** X7. Between two records with parseable plain dates, scored at the
    same reading of the clock, the one published earlier never gets the
    larger recency bonus. *)
Theorem recency_bonus_antitone now p1 p2 s1 s2 dt1 dt2 :
  is_naive_datetime now = true →
  p1 !! "published" = Some (VStr s1) → str_in "T" s1 = false →
  strptime_ymd s1 = Ok dt1 →
  p2 !! "published" = Some (VStr s2) → str_in "T" s2 = false →
  strptime_ymd s2 = Ok dt2 →
  toordinal dt1 ≤ toordinal dt2 →
  ∃ b1 b2,
    recency_component now p1 = Ok b1 ∧
    recency_component now p2 = Ok b2 ∧
    b1 ≤ b2.
Proof.
  intros Hnow Hp1 HT1 Hs1 Hp2 HT2 Hs2 Hle.
  destruct (strptime_ymd_midnight s1 dt1 Hs1) as (? & ? & ? & ? & ? & _).
  destruct (strptime_ymd_midnight s2 dt2 Hs2) as (? & ? & ? & ? & ? & _).
  exists (recency_tier (toordinal now - toordinal dt1)),
         (recency_tier (toordinal now - toordinal dt2)).
  split; [|split].
  - rewrite (recency_component_parsed now p1 s1 dt1 Hp1).
    + by rewrite sub_days_midnight.
    + by rewrite parse_published_text, HT1.
  - rewrite (recency_component_parsed now p2 s2 dt2 Hp2).
    + by rewrite sub_days_midnight.
    + by rewrite parse_published_text, HT2.
  - unfold recency_tier. repeat case_match; lia.
Qed.

Lemma recency_bonus_antitone_witness :
  ∃ b1 b2,
    recency_component noon_15_june
      (<["published" := VStr "2025-05-01"]> (paper_titled "Earlier")) = Ok b1 ∧
    recency_component noon_15_june
      (<["published" := VStr "2025-06-01"]> (paper_titled "Later")) = Ok b2 ∧
    b1 ≤ b2.
Proof.
  apply (recency_bonus_antitone noon_15_june _ _ "2025-05-01" "2025-06-01"
           (mkDatetime 2025 5 1 0 0 0 0 None) (mkDatetime 2025 6 1 0 0 0 0 None));
    try reflexivity.
  vm_compute. discriminate.
Defined.



(** ** The scorer and the validator together *)

Lemma upper_char_space c : is_space (upper_char c) = is_space c.
Proof. destruct c as [[] [] [] [] [] [] [] []]; reflexivity. Qed.

Lemma str_upper_spaces s :
  str_forallb is_space (str_upper s) = str_forallb is_space s.
Proof.
  induction s as [|c s IH]; simpl; [done|].
  by rewrite upper_char_space, IH.
Qed.

(** A conference that earns the prestige bonus is a text. *)
Lemma conference_component_20 paper :
  conference_component paper = Ok 20 →
  ∃ s, paper !! "conference" = Some (VStr s) ∧
       existsb (λ conf, str_in conf (str_upper s)) prestigious_conferences = true.
Proof.
  unfold conference_component, dict_get, py_or.
  destruct (paper !! "conference") as [[|b|n|s|l|d]|]; simpl; try discriminate.
  - destruct b; simpl; discriminate.
  - destruct (n =? 0) eqn:Hn; simpl; rewrite ?Hn; simpl; discriminate.
  - destruct s as [|a s]; [simpl; discriminate|].
    change (negb (String a s =? "")%string) with true. cbn [truthy py_upper].
    change (negb (String a s =? "")%string) with true. cbn [mbind result_bind].
    intros H. exists (String a s). split; [done|].
    unfold prestigious_conferences. cbn [existsb].
    match goal with |- ?b = true => destruct b; [done|discriminate] end.
  - destruct l; simpl; discriminate.
  - destruct (bool_decide (d = ∅)) eqn:Hd; simpl; rewrite ?Hd; simpl; discriminate.
Qed.

(** X9. The venue test of the validator is looser than the allow-list
    test of the scorer: a record whose conference earns the prestige
    bonus 20 has a non-blank conference, so every breakdown the
    validator returns for it includes the venue bonus and totals at
    least 5. *)
Theorem prestige_implies_venue_bonus paper :
  conference_component paper = Ok 20 →
  has_venue paper = true ∧
  ∀ v, validate_external_trending paper = Ok v →
       ∃ total, v !! "validation_score" = Some (VInt total) ∧ 5 ≤ total.
Proof.
  intros H20. apply conference_component_20 in H20 as (s & Hc & Hmatch).
  assert (str_forallb is_space s = false) as Hblank.
  { destruct (str_forallb is_space s) eqn:Hall; [|done].
    rewrite <- str_upper_spaces in Hall.
    apply existsb_exists in Hmatch as (conf & Hin & Hconf).
    pose proof (str_in_forallb is_space conf _ Hconf Hall) as Hsp.
    unfold prestigious_conferences in Hin.
    repeat (destruct Hin as [<-|Hin]; [vm_compute in Hsp; discriminate|]).
    destruct Hin. }
  split; [unfold has_venue; by rewrite Hc, Hblank|].
  intros v Hv. unfold validate_external_trending in Hv.
  apply bind_Ok_inv in Hv as (on_arxiv & _ & Hv).
  unfold dict_get in Hv. rewrite Hc in Hv. cbn [default from_option id] in Hv.
  rewrite affiliated_text, Hblank in Hv. simpl in Hv. injection Hv as <-.
  eexists. split; [by rewrite lookup_insert_eq|].
  repeat case_match; lia.
Qed.

Lemma prestige_implies_venue_bonus_witness :
  conference_component full_paper = Ok 20 ∧ has_venue full_paper = true.
Proof.
  split; [reflexivity|].
  apply (prestige_implies_venue_bonus full_paper). reflexivity.
Defined.

(** X10. The scorer reads three fields of the record and nothing else:
    two records that agree on [github_stars], [published] and
    [conference] get the same outcome at the same clock reading. In
    particular the keys the pipeline adds do not change a score. *)
Theorem scorer_reads_three_fields now p q :
  p !! "github_stars" = q !! "github_stars" →
  p !! "published" = q !! "published" →
  p !! "conference" = q !! "conference" →
  calculate_trending_score now p = calculate_trending_score now q.
Proof.
  intros Hs Hp Hc.
  unfold calculate_trending_score, github_component, recency_component,
    conference_component, dict_get_default, dict_get, dict_item.
  by rewrite Hs, Hp, Hc.
Qed.

Lemma scorer_reads_three_fields_witness :
  calculate_trending_score noon_15_june (validated paper_A)
  = calculate_trending_score noon_15_june paper_A.
Proof.
  apply scorer_reads_three_fields; apply validated_lookup_ne; discriminate.
Defined.

(** X11. The validator reads [url_abs], [github_stars] and [conference]
    and nothing else: two records that agree on them get the same
    outcome. In particular validating a scored or an already validated
    record gives what validating the source record gives. *)
Theorem validator_reads_three_fields p q :
  p !! "url_abs" = q !! "url_abs" →
  p !! "github_stars" = q !! "github_stars" →
  p !! "conference" = q !! "conference" →
  validate_external_trending p = validate_external_trending q.
Proof.
  intros Hu Hs Hc.
  unfold validate_external_trending, dict_get_default, dict_get.
  by rewrite Hu, Hs, Hc.
Qed.

Lemma validator_reads_three_fields_witness :
  validate_external_trending (validated paper_A)
  = validate_external_trending paper_A.
Proof.
  apply validator_reads_three_fields; apply validated_lookup_ne; discriminate.
Defined.

(** ** The candidate list *)

Lemma recent_only_Ok papers recent :
  recent_only papers = Ok recent → recent = List.filter is_recent papers.
Proof.
  revert recent. induction papers as [|p papers IH]; simpl; intros recent H.
  - by injection H as <-.
  - apply bind_Ok_inv in H as (b & Hb & H).
    apply bind_Ok_inv in H as (rest & Hrest & H).
    injection H as Heq. subst recent. unfold is_recent at 1. rewrite Hb.
    rewrite <- (IH rest Hrest). by destruct b.
Qed.

Lemma reduce_candidates_Ok all_papers out candidates :
  reduce_candidates all_papers = (out, Ok candidates) →
  candidates = match List.filter is_recent all_papers with
               | [] => take 10 all_papers
               | recent => recent
               end.
Proof.
  unfold reduce_candidates. intros H.
  apply io_bind_Ok_inv in H as (? & recent & ? & Hr & H & _).
  apply lift_Ok_inv in Hr. apply recent_only_Ok in Hr. subst recent.
  apply io_bind_Ok_inv in H as (? & [] & ? & _ & H & _).
  destruct (List.filter is_recent all_papers) as [|p rest].
  - apply io_bind_Ok_inv in H as (? & [] & ? & _ & H & _).
    by injection H as _ <-.
  - by injection H as _ <-.
Qed.

Lemma filter_length_le {A} (f : A → bool) (l : list A) :
  (length (List.filter f l) ≤ length l)%nat.
Proof. induction l as [|a l IH]; simpl; [lia|]. destruct (f a); simpl; lia. Qed.

(** X12. Whenever [fetch_trending] returns, it returns an empty list
    only for an empty response; it never returns more records than the
    response holds, and when no record passes the recency filter it
    returns ten records, or all of them if there are fewer. *)
Theorem fetch_trending_size clock all_papers out candidates :
  fetch_trending clock all_papers = (out, Ok candidates) →
  (candidates = [] ↔ all_papers = []) ∧
  (length candidates ≤ length all_papers)%nat ∧
  (List.filter is_recent all_papers = [] →
   length candidates = Nat.min 10 (length all_papers)).
Proof.
  intros H. unfold fetch_trending in H.
  apply io_bind_Ok_inv in H as (? & [] & ? & _ & H & _).
  apply io_bind_Ok_inv in H as (? & [] & ? & _ & H & _).
  apply io_bind_Ok_inv in H as (? & reduced & ? & Hred & H & _).
  apply lift_Ok_inv in H. apply enrich_trending_inserts in H.
  apply Forall2_length in H. apply reduce_candidates_Ok in Hred.
  pose proof (filter_length_le is_recent all_papers) as Hle.
  destruct (List.filter is_recent all_papers) as [|p rest] eqn:Hf.
  - subst reduced. rewrite length_take in H. split; [|split].
    + split.
      * intros ->. simpl in H. destruct all_papers; [done|simpl in H; lia].
      * intros ->. simpl in H. by destruct candidates.
    + lia.
    + intros _. lia.
  - subst reduced. simpl in H, Hle. split; [|split].
    + split.
      * intros ->. simpl in H. lia.
      * intros ->. simpl in Hf. discriminate.
    + lia.
    + discriminate.
Qed.

Lemma fetch_trending_size_witness :
  length (ok_or [] (snd (fetch_trending (λ _, noon_15_june) twelve_old_papers)))
  = 10%nat.
Proof.
  destruct (fetch_trending_size (λ _, noon_15_june) twelve_old_papers
              (fst (fetch_trending (λ _, noon_15_june) twelve_old_papers))
              (ok_or [] (snd (fetch_trending (λ _, noon_15_june) twelve_old_papers))))
    as (_ & _ & H).
  - vm_compute. reflexivity.
  - rewrite H; [reflexivity|vm_compute; reflexivity].
Defined.

(** ** The selector *)

Lemma add_validation_inv papers res :
  add_validation papers = Ok res →
  Forall2 (λ p q, ∃ v, validate_external_trending p = Ok v ∧
                       q = <["external_validation" := VDict v]> p) papers res.
Proof.
  revert res. induction papers as [|p papers IH]; simpl; intros res H.
  - injection H as <-. constructor.
  - apply bind_Ok_inv in H as (v & Hv & H).
    apply bind_Ok_inv in H as (rest & Hrest & H).
    injection H as <-. constructor; eauto.
Qed.

Lemma validate_ignores_validation paper v :
  validate_external_trending (<["external_validation" := v]> paper)
  = validate_external_trending paper.
Proof.
  unfold validate_external_trending, dict_get_default, dict_get.
  by rewrite !lookup_insert_ne by done.
Qed.

(** X13. Whatever [pick_best] returns for a non-empty list is one of
    the input records with the validator's breakdown of that record
    stored under ['external_validation']; so the record returned is
    never empty (it is truthy), and validating it again gives the
    breakdown it carries. *)
Theorem pick_best_result_is_validated papers out best :
  papers ≠ [] →
  pick_best papers = (out, Ok best) →
  ∃ p v,
    p ∈ papers ∧
    validate_external_trending p = Ok v ∧
    best = <["external_validation" := VDict v]> p ∧
    validate_external_trending best = Ok v ∧
    truthy (VDict best) = true.
Proof.
  intros Hne Hpick.
  destruct (pick_best_result papers out best Hne Hpick) as (res & Hres & Hbest).
  apply add_validation_inv in Hres.
  apply list_elem_of_lookup in Hbest as [i Hbest].
  destruct (Forall2_lookup_r _ _ _ _ _ Hres Hbest) as (p & Hp & v & Hv & ->).
  exists p, v. split; [by eapply list_elem_of_lookup_2|]. split; [done|].
  split; [done|]. split.
  - rewrite <- Hv. apply validate_ignores_validation.
  - simpl. rewrite bool_decide_eq_false_2; [done|]. apply insert_non_empty.
Qed.

Lemma pick_best_result_is_validated_witness :
  ∃ p v,
    p ∈ three_papers ∧
    validate_external_trending p = Ok v ∧
    ok_or ∅ (snd (pick_best three_papers)) = <["external_validation" := VDict v]> p.
Proof.
  destruct (pick_best_result_is_validated three_papers
              (fst (pick_best three_papers))
              (ok_or ∅ (snd (pick_best three_papers))))
    as (p & v & Hp & Hv & Hbest & _).
  - discriminate.
  - vm_compute. reflexivity.
  - exists p, v. split; [exact Hp|]. split; [exact Hv|exact Hbest].
Defined.

Lemma report_candidate_validated i paper :
  title_ok paper = true → trending_ok paper = true →
  report_candidate i (validated paper) = (candidate_report i paper, Ok tt).
Proof.
  unfold title_ok, trending_ok. intros Ht Hok.
  unfold report_candidate, dict_item, candidate_report, title_text,
    breakdown_field, combined_total, trending_total.
  rewrite validated_get, validated_get_ne, validated_lookup_ne by done.
  cbn [py_get]. rewrite validation_of_score.
  destruct (paper !! "title") as [[| | |t| |]|]; try discriminate.
  destruct (paper !! "trending_analysis") as [[| | | | |d]|] eqn:Hta;
    try discriminate.
  - rewrite (dict_get_default_Some _ _ _ _ Hta). cbn [py_get].
    apply andb_true_iff in Hok as [Htot Hstars].
    unfold int_valued in *.
    destruct (as_int (dict_get_default d "total_score" (VInt 0))) eqn:E1; [|done].
    destruct (as_int (dict_get_default d "github_stars" (VInt 0))) eqn:E2; [|done].
    do 3 (simpl; unfold py_add_int, py_floordiv10; rewrite ?E1, ?E2).
    reflexivity.
  - rewrite (dict_get_default_None _ _ _ Hta). reflexivity.
Qed.

Lemma report_top_validated i papers :
  Forall (λ p, title_ok p = true ∧ trending_ok p = true) papers →
  report_top i (map validated papers)
  = (concat (imap (λ k p, candidate_report (i + k) p) papers), Ok tt).
Proof.
  intros H. revert i. induction H as [|p papers [Ht Hok] _ IH]; intros i; [done|].
  cbn [map report_top]. rewrite report_candidate_validated by done.
  cbn [mbind io_bind]. rewrite IH. cbn [imap concat].
  rewrite Nat.add_0_r. do 3 f_equal.
  apply imap_ext. intros k q _. simpl. f_equal. lia.
Qed.

(** The whole trace of [pick_best] on typed records. *)
Lemma pick_best_trace papers :
  papers ≠ [] →
  Forall (λ p, selectable p = true) papers →
  ∃ best rest,
    sorted_desc_by combined_total papers = best :: rest ∧
    pick_best papers
    = (MsgAnalyzing :: MsgTopCandidates ::
         concat (imap (λ k p, candidate_report (1 + k) p) (take 3 (best :: rest))),
       Ok (validated best)).
Proof.
  intros Hne Hsel.
  assert (Forall (λ p, url_ok p = true ∧ conference_ok p = true) papers) as Hval.
  { eapply Forall_impl; [exact Hsel|]. intros p Hp.
    by apply selectable_inv in Hp as (_ & ? & ? & _). }
  assert (Forall (λ p, trending_ok p = true) papers) as Htr.
  { eapply Forall_impl; [exact Hsel|]. intros p Hp.
    by apply selectable_inv in Hp as (_ & _ & _ & ?). }
  assert (Forall (λ p, title_ok p = true ∧ trending_ok p = true) papers) as Hrep.
  { eapply Forall_impl; [exact Hsel|]. intros p Hp.
    by apply selectable_inv in Hp as (? & _ & _ & ?). }
  pose proof (sorted_desc_by_perm combined_total papers) as Hperm.
  destruct (sorted_desc_by combined_total papers) as [|best rest] eqn:Hsorted.
  { apply Permutation_nil_l in Hperm. congruence. }
  exists best, rest. split; [done|].
  unfold pick_best. destruct papers as [|p0 papers0]; [done|].
  rewrite add_validation_typed by done.
  cbn [mbind io_bind print lift].
  rewrite sorted_by_combined_score_validated, Hsorted by done.
  rewrite <- fmap_take, report_top_validated.
  - cbn [mbind io_bind mret io_ret map fmap list_fmap app].
    by rewrite app_nil_r.
  - apply Forall_take. by rewrite Hperm.
Qed.

Lemma ranks_of_report i papers :
  ranks_of (concat (imap (λ k p, candidate_report (i + k) p) papers))
  = seq i (length papers).
Proof.
  revert i. induction papers as [|p papers IH]; intros i; [done|].
  cbn [imap concat length seq]. unfold ranks_of in *. simpl.
  rewrite Nat.add_0_r. f_equal. rewrite <- (IH (S i)). do 2 f_equal.
  apply imap_ext. intros k q _. simpl. do 2 f_equal. lia.
Qed.

Lemma totals_of_report i papers :
  totals_of (concat (imap (λ k p, candidate_report (i + k) p) papers))
  = map combined_total papers.
Proof.
  revert i. induction papers as [|p papers IH]; intros i; [done|].
  cbn [imap concat map]. unfold totals_of in *. simpl.
  f_equal. rewrite <- (IH (S i)). do 2 f_equal.
  apply imap_ext. intros k q _. simpl. do 2 f_equal. lia.
Qed.

Lemma StronglySorted_take_prefix {A} (R : A → A → Prop) n (l : list A) :
  StronglySorted R l → StronglySorted R (take n l).
Proof.
  intros Hl. revert n. induction Hl as [|a l Hl IH Ha]; intros n.
  - rewrite take_nil. constructor.
  - destruct n; simpl; constructor; [apply IH|].
    apply Forall_forall. intros x Hx. rewrite Forall_forall in Ha.
    apply Ha. by eapply subseteq_take.
Qed.

Lemma StronglySorted_map_key {A} (f : A → Z) (l : list A) :
  StronglySorted (λ a b, f b ≤ f a) l →
  StronglySorted (λ a b : Z, b ≤ a) (map f l).
Proof.
  induction 1 as [|a l Hl IH Ha]; simpl; constructor; [done|].
  apply Forall_forall. intros y Hy.
  apply list_elem_of_In, in_map_iff in Hy as (x & <- & Hx).
  rewrite Forall_forall in Ha. apply Ha. by apply list_elem_of_In.
Qed.

(** X14. On a non-empty list of typed records the top-3 report of
    [pick_best] ranks at most three candidates, numbered from 1; the
    totals it prints are the combined scores of the first records of the
    sorted sequence, in descending order, and the first of them is the
    combined score of the record returned. *)
Theorem top3_report_totals papers :
  papers ≠ [] →
  Forall (λ p, selectable p = true) papers →
  ∃ out best rest,
    pick_best papers = (out, Ok (validated best)) ∧
    sorted_desc_by combined_total papers = best :: rest ∧
    totals_of out = map combined_total (take 3 (best :: rest)) ∧
    ranks_of out = seq 1 (Nat.min 3 (length papers)) ∧
    head (totals_of out) = Some (combined_total best) ∧
    StronglySorted (λ a b, b ≤ a) (totals_of out).
Proof.
  intros Hne Hsel.
  destruct (pick_best_trace papers Hne Hsel) as (best & rest & Hsorted & Hpick).
  eexists _, best, rest. split; [exact Hpick|]. split; [done|].
  assert (totals_of (MsgAnalyzing :: MsgTopCandidates ::
            concat (imap (λ k p, candidate_report (1 + k) p) (take 3 (best :: rest))))
          = map combined_total (take 3 (best :: rest))) as Htot.
  { change (totals_of (?a :: ?b :: ?l)) with (totals_of l).
    apply totals_of_report. }
  split; [exact Htot|]. split; [|split].
  - change (ranks_of (?a :: ?b :: ?l)) with (ranks_of l).
    rewrite ranks_of_report, length_take. f_equal.
    rewrite <- Hsorted, (sorted_desc_by_perm combined_total papers). lia.
  - rewrite Htot. reflexivity.
  - rewrite Htot.
    pose proof (sorted_desc_by_sorted combined_total papers) as Hs.
    rewrite Hsorted in Hs.
    apply StronglySorted_map_key. by apply StronglySorted_take_prefix.
Qed.

Lemma top3_report_totals_witness :
  totals_of (fst (pick_best three_papers)) = [15; 15; 5] ∧
  ranks_of (fst (pick_best three_papers)) = [1; 2; 3]%nat.
Proof.
  destruct (top3_report_totals three_papers) as (out & best & rest & Hp & _).
  - discriminate.
  - repeat constructor.
  - split; vm_compute; reflexivity.
Defined.

Lemma substring_prefix n s : String.prefix (String.substring 0 n s) s = true.
Proof.
  revert n. induction s as [|a s IH]; intros [|n]; simpl; try done.
  destruct (ascii_dec a a); [apply IH|done].
Qed.

Lemma substring_length n s :
  String.length (String.substring 0 n s) = Nat.min n (String.length s).
Proof.
  revert n. induction s as [|a s IH]; intros [|n]; simpl; try done.
  by rewrite IH.
Qed.

Lemma substring_all n s :
  (String.length s ≤ n)%nat → String.substring 0 n s = s.
Proof.
  revert n. induction s as [|a s IH]; intros [|n] Hn; simpl in *; try done.
  - lia.
  - rewrite IH; [done|lia].
Qed.

(** X15. The report line of a candidate shows the title cut to its
    first 60 characters: a prefix of the title, of length
    min(60, length), and the title itself when it has at most 60. *)
Theorem report_title_is_truncated i paper t :
  paper !! "title" = Some (VStr t) →
  trending_ok paper = true →
  ∃ shown rest,
    report_candidate i (validated paper) = (MsgCandidate i (VStr shown) :: rest, Ok tt) ∧
    String.prefix shown t = true ∧
    String.length shown = Nat.min 60 (String.length t) ∧
    ((String.length t ≤ 60)%nat → shown = t).
Proof.
  intros Ht Hok.
  rewrite report_candidate_validated; [|unfold title_ok; by rewrite Ht|done].
  unfold candidate_report, title_text. rewrite Ht.
  eexists _, _. split; [reflexivity|].
  split; [apply substring_prefix|].
  split; [apply substring_length|apply substring_all].
Qed.

Lemma report_title_is_truncated_witness :
  ∃ shown rest,
    report_candidate 1 (validated (paper_titled
      "A very long title that goes on and on well past the sixty characters the report keeps"))
    = (MsgCandidate 1 (VStr shown) :: rest, Ok tt) ∧
    String.length shown = 60%nat.
Proof.
  destruct (report_title_is_truncated 1 (paper_titled
      "A very long title that goes on and on well past the sixty characters the report keeps")
      "A very long title that goes on and on well past the sixty characters the report keeps")
    as (shown & rest & Hr & _ & Hlen & _); try reflexivity.
  exists shown, rest. split; [exact Hr|]. rewrite Hlen. reflexivity.
Defined.

Lemma github_component_star_count paper g :
  github_component paper = Ok (VInt g) → g = 10 * star_count paper.
Proof.
  unfold github_component, dict_get_default, py_or, star_count.
  destruct (paper !! "github_stars") as [[|b|n|s|l|d]|]; simpl.
  - by intros [= <-].
  - destruct b; simpl; by intros [= <-].
  - destruct (n =? 0) eqn:Hn; simpl; intros [= <-]; [|lia].
    apply Z.eqb_eq in Hn. lia.
  - destruct (negb (s =? "")%string); simpl; [discriminate|by intros [= <-]].
  - destruct l; simpl; [by intros [= <-]|discriminate].
  - destruct (negb (bool_decide (d = ∅))); simpl; [discriminate|by intros [= <-]].
  - by intros [= <-].
Qed.

(** X16. The star count survives the trip through the breakdown: for a
    typed record scored by [calculate_trending_score] and then validated,
    the report line shows the record's own star count (the stored
    component divided by ten), next to the stored total and bonuses. *)
Theorem report_shows_star_count now i paper sb :
  paper_record paper = true →
  calculate_trending_score now paper = Ok sb →
  ∃ title_line r c tail,
    report_candidate i (validated (<["trending_analysis" := VDict sb]> paper))
    = (title_line ::
       MsgTrendingScore (VInt (10 * star_count paper + r + c))
         (star_count paper) (VInt r) (VInt c) :: tail, Ok tt).
Proof.
  intros Hrec Hsb.
  pose proof (scored_selectable now paper sb Hrec Hsb) as Hsel.
  apply selectable_inv in Hsel as (Ht & _ & _ & Hok).
  rewrite report_candidate_validated by done.
  apply calculate_trending_score_inv in Hsb as (g & r & c & Hg & _ & _ & ->).
  apply github_component_star_count in Hg as ->.
  unfold candidate_report, breakdown_field. rewrite lookup_insert_eq.
  unfold dict_get_default.
  rewrite lookup_insert_eq, !lookup_insert_ne, !lookup_insert_eq by done.
  simpl. rewrite (Z.mul_comm 10), Z.div_mul by done.
  by eexists _, r, c, _.
Qed.

Lemma report_shows_star_count_witness :
  ∃ title_line r c tail,
    report_candidate 1
      (validated (<["trending_analysis" :=
          VDict (ok_or ∅ (calculate_trending_score noon_15_june paper_A))]> paper_A))
    = (title_line ::
       MsgTrendingScore (VInt (10 * 100 + r + c)) 100 (VInt r) (VInt c) :: tail,
       Ok tt).
Proof.
  apply (report_shows_star_count noon_15_june 1 paper_A); vm_compute; reflexivity.
Defined.
